(** * statelyx/pdfconverter: browser front end of the PDF tool set

    A shallow embedding of [js/processing.js], [js/converters.js] and the
    older copy of the converters (the unnamed part), with the properties
    the design document states about them.

    Conventions of the embedding.
    - A JavaScript string is a [string] (its UTF-8 bytes).  Searching for
      an ASCII pattern gives the same position in bytes and in UTF-16 code
      units.
    - An [async] function is run sequentially, one [await] after the
      other, which is how a single call of these functions executes.  A
      rejected promise and a thrown exception are both [Throw]; a call
      that waits for a promise that never settles is [Pending].
    - Effects on the page (progress bar, toasts, step changes, network
      requests) are recorded as a trace of events, in program order.
      Console output is not recorded.
    - Numbers that the code only adds and compares on small integers are
      [Z].  Page geometry is computed over exact rationals [Q]: what is
      proved of it holds in exact arithmetic, before the rounding of IEEE
      doubles.  Where a text on the page or a statement depends on that
      rounding, the computation is done on binary64 numbers ([Doubles]). *)

From Stdlib Require Import List String Ascii ZArith QArith Lia Bool.
From Stdlib Require Import DecimalString DecimalNat.
From Stdlib Require Floats.
Import ListNotations.

Local Open Scope string_scope.
Local Open Scope list_scope.

(** ** JavaScript strings *)

Module JsString.

(** [s.endsWith(suf)] *)
Fixpoint endsWith (s suf : string) : bool :=
  String.eqb s suf ||
  match s with
  | EmptyString => false
  | String _ s' => endsWith s' suf
  end.

(** The rest of [s] after [pat], when [s] starts with [pat]. *)
Fixpoint strip_prefix (pat s : string) : option string :=
  match pat with
  | EmptyString => Some s
  | String a p =>
      match s with
      | EmptyString => None
      | String b s' => if Ascii.eqb a b then strip_prefix p s' else None
      end
  end.

(** First occurrence of [pat] in [s]: the text before it and after it. *)
Fixpoint search (pat s : string) : option (string * string) :=
  match strip_prefix pat s with
  | Some rest => Some (EmptyString, rest)
  | None =>
      match s with
      | EmptyString => None
      | String c s' =>
          match search pat s' with
          | Some (before, after) => Some (String c before, after)
          | None => None
          end
      end
  end.

(** ECMAScript GetSubstitution for a string pattern (no capture groups):
    in the replacement text [$$] is a dollar sign, [$&] the matched text,
    [$`] the text before the match and [$'] the text after it; any other
    [$] stands for itself. *)
Fixpoint getSubstitution (matched before after repl : string) : string :=
  match repl with
  | EmptyString => EmptyString
  | String c r =>
      if Ascii.eqb c "$" then
        match r with
        | EmptyString => String c EmptyString
        | String d r' =>
            if Ascii.eqb d "$" then
              String "$" (getSubstitution matched before after r')
            else if Ascii.eqb d "&" then
              matched ++ getSubstitution matched before after r'
            else if Ascii.eqb d "`" then
              before ++ getSubstitution matched before after r'
            else if Ascii.eqb d "'" then
              after ++ getSubstitution matched before after r'
            else String c (getSubstitution matched before after r)
        end
      else String c (getSubstitution matched before after r)
  end.

(** [s.replace(pat, repl)] with a string pattern: only the first
    occurrence is replaced; without an occurrence [s] is returned. *)
Definition replace (s pat repl : string) : string :=
  match search pat s with
  | Some (before, after) =>
      before ++ getSubstitution pat before after repl ++ after
  | None => s
  end.

(** [arr.join(sep)] on an array of strings. *)
Fixpoint join (sep : string) (l : list string) : string :=
  match l with
  | [] => EmptyString
  | [x] => x
  | x :: rest => x ++ sep ++ join sep rest
  end.

(** Decimal text of a non-negative integer, as template literals and
    [+] produce it. *)
Definition ofNat (n : nat) : string :=
  NilEmpty.string_of_uint (Nat.to_uint n).



(** A text without [$]. *)
Fixpoint noDollar (s : string) : bool :=
  match s with
  | EmptyString => true
  | String c s' => negb (Ascii.eqb c "$") && noDollar s'
  end.


End JsString.

(** ** IEEE 754 binary64 numbers *)

Module Doubles.

Import PrimFloat FloatOps SpecFloat.

(** The double nearest to an integer (a tie goes to the even one): a
    size, a width or a height as a JavaScript number. *)
Definition ofZ (z : Z) : float :=
  SF2Prim (binary_normalize prec emax z 0 false).

(** The exact value of a finite double. *)
Definition exact (x : float) : option Q :=
  match Prim2SF x with
  | S754_zero _ => Some 0
  | S754_finite s m e =>
      Some ((if s then - inject_Z (Z.pos m) else inject_Z (Z.pos m))
            * Qpower 2 e)
  | S754_infinity _ => None
  | S754_nan => None
  end.

(** The integer nearest to m * 2^e, the larger one of two: the rounding
    of [toFixed(0)]. *)
Definition nearest (m : positive) (e : Z) : Z :=
  if (0 <=? e)%Z then (Z.pos m * 2 ^ e)%Z
  else ((2 * Z.pos m + 2 ^ (- e)) / (2 * 2 ^ (- e)))%Z.

(** Decimal text of an integer that is not negative. *)
Definition digits (n : Z) : string :=
  NilEmpty.string_of_uint (N.to_uint (Z.to_N n)).

(** [x.toFixed(0)]: the texts of [NaN] and the infinities; else the sign
    of a negative number and the digits of the integer nearest to its
    magnitude.  (At a magnitude of 10^21 and above JavaScript prints an
    exponent instead; the percentage of two sizes below 2^53 stays
    below 10^18.) *)
Definition toFixed0 (x : float) : string :=
  match Prim2SF x with
  | S754_nan => "NaN"
  | S754_infinity s => if s then "-Infinity" else "Infinity"
  | S754_zero _ => "0"
  | S754_finite s m e =>
      ((if s then "-" else EmptyString) ++ digits (nearest m e))%string
  end.

(** [((1 - blobSize / fileSize) * 100).toFixed(0)] *)
Definition percentSaved (blobSize fileSize : N) : string :=
  toFixed0 ((1 - ofZ (Z.of_N blobSize) / ofZ (Z.of_N fileSize)) * 100)%float.

(** Size and position of an image of [width] by [height] on a page of
    [pw] by [ph], as [imagesToPDF] computes them in doubles:
    [(x, y, iw, ih)]. *)
Definition placeImage (pw ph : float) (width height : Z)
  : float * float * float * float :=
  let w := ofZ width in
  let h := ofZ height in
  let iw := (pw - 20)%float in
  let ih := ((h * iw) / w)%float in
  let '(iw, ih) :=
    if ((ph - 20) <? ih)%float then (((w * (ph - 20)) / h)%float,
                                     (ph - 20)%float)
    else (iw, ih) in
  (((pw - iw) / 2)%float, ((ph - ih) / 2)%float, iw, ih).

End Doubles.

(** ** Results, errors and the effect trace *)

(** A thrown value.  [Err m] is [new Error(m)] (or a rejection that
    carries the message [m]); [EngineTypeError] is a [TypeError] raised
    by the engine itself (reading a property of [undefined] or [null]),
    whose message text depends on the engine and on the expression. *)
Inductive Error : Type :=
| Err (message : string)
| EngineTypeError.

(** [error.message].  The text of a [TypeError] of the engine is not
    fixed by the program: it is given as [engineMessage]. *)
Definition message (engineMessage : string) (e : Error) : string :=
  match e with
  | Err m => m
  | EngineTypeError => engineMessage
  end.

Inductive Res (A : Type) : Type :=
| Ok (a : A)
| Throw (e : Error).
Arguments Ok {A} a.
Arguments Throw {A} e.

Definition ArrayBuffer := list Byte.byte.

(** What the [Response] of a backend request carries. *)
Definition Body := list Byte.byte.

(** A canvas after a page has been rendered into it. *)
Record Canvas : Type := mkCanvas {
  canvas_width : Q;
  canvas_height : Q;
  canvas_bitmap : nat
}.

(** A [data:] URL: the one [FileReader.readAsDataURL] gives for a file, or
    the one [canvas.toDataURL(mime, quality)] gives for a canvas. *)
Inductive DataUrl : Type :=
| UrlOfFile (content : ArrayBuffer)
| UrlOfCanvas (c : Canvas) (mime : string) (quality : Q).

(** The drawing calls made on a [jsPDF] document, in order. *)
Inductive DocOp : Type :=
| AddPage
| Text (line : string) (x y : Z)
| AddImage (data : DataUrl) (format : string) (x y w h : Q).

(** A [Blob], by the way it was made. *)
Inductive Blob : Type :=
| BlobOfText (content : string) (mime : string)
| BlobOfDataUrl (d : DataUrl)
| BlobOfDoc (ops : list DocOp)
| BlobOfBody (b : Body).

(** One entry of the result list [{ name, size, url }].  [size] is
    [blob.size] and [url] is the object URL of the blob: both are read off
    the blob, which is what the model keeps. *)
Record Artifact : Type := mkArtifact {
  name : string;
  blob : Blob
}.

Record File : Type := mkFile {
  file_name : string;
  file_size : N;                    (* [file.size] *)
  file_bytes : option ArrayBuffer   (* [None]: the FileReader fails *)
}.

(** A value appended to a [FormData]. *)
Inductive FormValue : Type :=
| FormFile (f : File)
| FormText (s : string).

Definition FormData := list (string * FormValue).

Inductive Event : Type :=
| UpdateProgress (p : Q)
| GoToStep (n : Z)
| ShowToast (msg kind : string)
| ShowResults (results : list Artifact)
| Fetch (url : string) (form : FormData).

(** Computations: the events emitted so far and how the run ended. *)
Definition M (A : Type) : Type := (list Event * Res A)%type.

Definition ret {A} (a : A) : M A := ([], Ok a).

Definition bind {A B} (m : M A) (k : A -> M B) : M B :=
  match m with
  | (l, Ok a) => let (l', r) := k a in (l ++ l', r)
  | (l, Throw e) => (l, Throw e)
  end.

Definition throw {A} (e : Error) : M A := ([], Throw e).

Definition emit (ev : Event) : M unit := ([ev], Ok tt).

Definition lift {A} (r : Res A) : M A := ([], r).

(** [try { m } catch (error) { handler error }] *)
Definition try_catch {A} (m : M A) (handler : Error -> M A) : M A :=
  match m with
  | (l, Ok a) => (l, Ok a)
  | (l, Throw e) => let (l', r) := handler e in (l ++ l', r)
  end.

Notation "x <- m ;; k" := (bind m (fun x => k))
  (at level 61, m at next level, right associativity).
Notation "m ;;; k" := (bind m (fun _ => k))
  (at level 61, right associativity).

(** [for (const x of l) s = body s x], stopping at the first throw. *)
Fixpoint for_each {A S} (body : S -> A -> M S) (s : S) (l : list A) : M S :=
  match l with
  | [] => ret s
  | x :: rest => s' <- body s x ;; for_each body s' rest
  end.

(** A call of an [async] function.  It settles, returning or throwing
    after the events of [m]; or a promise it awaits never settles, and
    the call stays pending for ever after the events of [trace]. *)
Inductive Run (A : Type) : Type :=
| Settled (m : M A)
| Pending (trace : list Event).
Arguments Settled {A} m.
Arguments Pending {A} trace.

(** The events of a call. *)
Definition traceOf {A} (r : Run A) : list Event :=
  match r with
  | Settled m => fst m
  | Pending trace => trace
  end.

(** [const x = await r; k x] *)
Definition await {A B} (r : Run A) (k : A -> Run B) : Run B :=
  match r with
  | Settled (l, Ok a) =>
      match k a with
      | Settled (l', x) => Settled (l ++ l', x)
      | Pending l' => Pending (l ++ l')
      end
  | Settled (l, Throw e) => Settled (l, Throw e)
  | Pending l => Pending l
  end.

(** [try { await r } catch (error) { handler error }]: a call that stays
    pending never reaches the handler. *)
Definition try_await {A} (r : Run A) (handler : Error -> M A) : Run A :=
  match r with
  | Settled m => Settled (try_catch m handler)
  | Pending l => Pending l
  end.

Notation "x <~ r ;; k" := (await r (fun x => k))
  (at level 61, r at next level, right associativity).

(** The loop [for (const x of l)] around calls that are awaited. *)
Fixpoint await_each {A S} (body : S -> A -> Run S) (s : S) (l : list A)
  : Run S :=
  match l with
  | [] => Settled (ret s)
  | x :: rest => s' <~ body s x ;; await_each body s' rest
  end.

Definition updateProgress (p : Q) : M unit := emit (UpdateProgress p).
Definition goToStep (n : Z) : M unit := emit (GoToStep n).
Definition showToast (msg kind : string) : M unit := emit (ShowToast msg kind).

(** The application state of [modals.js]. *)
Record State : Type := mkState {
  currentTool : option string;
  files : list File
}.

(** ** js/processing.js *)

Module Processing.

(** The form controls the code reads with [document.getElementById]:
    [None] when the element is missing, else its [value]. *)
Record Dom : Type := mkDom {
  sourceLang : option string;
  targetLang : option string;
  translateFormat : option string
}.

(** The body of an error response as [response.json()] sees it:
    not JSON at all (the promise rejects), the JSON value [null], or any
    other JSON value with its [error] property ([None] when the property
    is missing or falsy). *)
Inductive JsonBody : Type :=
| JsonRejected
| JsonNull
| JsonValue (error : option string).

Record Response : Type := mkResponse {
  ok : bool;
  json : JsonBody;
  body : Res Body       (* [response.blob()] *)
}.

(** The world outside the page: the form controls, the configured
    backend address ([js/config.js]), what the backend answers to a
    request ([Throw]: the request itself fails), and the message the
    engine gives the [TypeError] it raises during the request, should it
    raise one. *)
Record Env : Type := mkEnv {
  dom : Dom;
  BACKEND_URL : string;
  backend : string -> FormData -> Res Response;
  typeErrorMessage : string
}.

Definition fetch (env : Env) (url : string) (form : FormData) : M Response :=
  emit (Fetch url form) ;;; lift (backend env url form).

(** [x ? x.value : dflt] *)
Definition valueOr (x : option string) (dflt : string) : string :=
  match x with
  | Some v => v
  | None => dflt
  end.

(** [formData.append('file', file)]: a missing file is appended as the
    text [undefined]. *)
Definition fileValue (file : option File) : FormValue :=
  match file with
  | Some f => FormFile f
  | None => FormText "undefined"
  end.

Definition formatOf (env : Env) : string :=
  valueOr (translateFormat (dom env)) "html".

Definition endpointOf (format : string) : string :=
  if String.eqb format "html" then "/translate-html" else "/translate".

Definition extOf (format : string) : string :=
  if String.eqb format "html" then ".html" else ".pdf".

Definition translateForm (st : State) (env : Env) : FormData :=
  [ ("file", fileValue (hd_error (files st)));
    ("source", FormText (valueOr (sourceLang (dom env)) "auto"));
    ("target", FormText (valueOr (targetLang (dom env)) "tr")) ].

(** The error built from a failed response:
    [var err = await response.json().catch(function () { return {}; });
     throw new Error(err.error || 'Backend hatası');]
    Reading [error] off [null] is a [TypeError]. *)
Definition backendError (j : JsonBody) : Error :=
  match j with
  | JsonRejected => Err "Backend hatası"
  | JsonNull => EngineTypeError
  | JsonValue (Some e) => Err e
  | JsonValue None => Err "Backend hatası"
  end.

(** [file.name.replace('.pdf', suffix)] where [file] may be [undefined]. *)
Definition renamed (file : option File) (suffix : string) : Res string :=
  match file with
  | Some f => Ok (JsString.replace (file_name f) ".pdf" suffix)
  | None => Throw EngineTypeError
  end.

Definition translatePDFBackend (st : State) (env : Env) : M (list Artifact) :=
  updateProgress 10 ;;;
  let file := hd_error (files st) in
  let formData := translateForm st env in
  let format := formatOf env in
  let endpoint := endpointOf format in
  updateProgress 30 ;;;
  try_catch
    (response <- fetch env (BACKEND_URL env ++ endpoint) formData ;;
     (if negb (ok response) then throw (backendError (json response))
      else ret tt) ;;;
     updateProgress 90 ;;;
     blob <- lift (body response) ;;
     let targetLang := valueOr (targetLang (dom env)) "tr" in
     let ext := extOf format in
     fileName <- lift (renamed file ("_ceviri_" ++ targetLang ++ ext)) ;;
     updateProgress 100 ;;;
     ret [ mkArtifact fileName (BlobOfBody blob) ])
    (fun error => throw error).




(** The other tools [processFiles] can start, each as the call it
    awaits.  Their code is not needed to state what [processFiles] does
    with their outcome. *)
Record Tools : Type := mkTools {
  compressPDFBackend : Run (list Artifact);
  pdfToWordBackend : Run (list Artifact);
  pdfToExcelBackend : Run (list Artifact);
  pdfToImageBackend : Run (list Artifact);
  pdfToImagesBackend : Run (list Artifact);
  wordToPDF : Run (list Artifact);
  imagesToPDF : Run (list Artifact);
  pdfToImages : Run (list Artifact);
  mergePDFs : Run (list Artifact);
  splitPDF : Run (list Artifact)
}.

Definition isTool (st : State) (tool : string) : bool :=
  match currentTool st with
  | Some t => String.eqb t tool
  | None => false
  end.

(** The [if]/[else if] chain and the [switch] inside the [try] block. *)
Definition dispatch (tools : Tools) (env : Env) (st : State)
  : Run (list Artifact) :=
  if isTool st "translate" then Settled (translatePDFBackend st env)
  else if isTool st "compress-pdf" then compressPDFBackend tools
  else if isTool st "pdf-to-word" then pdfToWordBackend tools
  else if isTool st "pdf-to-excel" then pdfToExcelBackend tools
  else if isTool st "pdf-to-image" then pdfToImageBackend tools
  else if isTool st "pdf-to-images" then pdfToImagesBackend tools
  else if isTool st "word-to-pdf" then wordToPDF tools
  else if isTool st "jpg-to-pdf" then imagesToPDF tools
  else if isTool st "pdf-to-jpg" then pdfToImages tools
  else if isTool st "merge-pdf" then mergePDFs tools
  else if isTool st "split-pdf" then splitPDF tools
  else Settled (ret []).

(** [showResults]: moves to step 4 and, on a page that has the download
    list, fills it with the results. *)
Definition showResults (results : list Artifact) : M unit :=
  goToStep 4 ;;; emit (ShowResults results).

Definition processFiles (tools : Tools) (env : Env) (st : State)
  : Run unit :=
  match files st with
  | [] => Settled (showToast "Lütfen dosya seçin!" "error")
  | _ :: _ =>
      _ <~ Settled (goToStep 3 ;;; updateProgress 0) ;;
      try_await
        (results <~ dispatch tools env st ;;
         Settled (showResults results ;;;
                  showToast "Tamamlandı!" "success"))
        (fun error =>
           showToast ("Hata: " ++ message (typeErrorMessage env) error)
                     "error" ;;;
           goToStep 2)
  end.

End Processing.

(** ** The libraries the converters call *)

(** One item of [page.getTextContent().items]. *)
Record TextItem : Type := mkTextItem {
  str : string
}.

(** A page of a document opened with pdf.js: its text content and its
    rendering into a fresh canvas at a given scale
    ([page.getViewport({ scale })], a canvas of that size, [page.render]). *)
Record Page : Type := mkPage {
  getTextContent : Res (list TextItem);
  render : Q -> Res Canvas
}.

Record PDF : Type := mkPDF {
  numPages : nat;
  getPage : nat -> Res Page
}.

Record Libs : Type := mkLibs {
  getDocument : ArrayBuffer -> Res PDF;       (* pdfjsLib.getDocument *)
  extractRawText : ArrayBuffer -> Res string; (* mammoth.extractRawText *)
  decode : ArrayBuffer -> string;             (* new TextDecoder().decode *)
  splitTextToSize : string -> Z -> list string;          (* jsPDF *)
  pageWidth : Q;                 (* doc.internal.pageSize.getWidth() *)
  pageHeight : Q;                (* doc.internal.pageSize.getHeight() *)
  imageSize : DataUrl -> option (Z * Z);
    (* width and height of the Image once loaded; [None]: it never loads *)
  outputFormat : option string   (* value of the outputFormat control *)
}.

(** [readFileAsArrayBuffer] and [readFileAsDataURL]: a failing reader
    rejects with 'Dosya okunamadı'; given [undefined] the reader call
    itself throws. *)
Definition readFileAsArrayBuffer (file : option File) : Res ArrayBuffer :=
  match file with
  | Some f =>
      match file_bytes f with
      | Some b => Ok b
      | None => Throw (Err "Dosya okunamadı")
      end
  | None => Throw EngineTypeError
  end.

Definition readFileAsDataURL (file : option File) : Res DataUrl :=
  match file with
  | Some f =>
      match file_bytes f with
      | Some b => Ok (UrlOfFile b)
      | None => Throw (Err "Dosya okunamadı")
      end
  | None => Throw EngineTypeError
  end.

(** [i / n * 100] *)
Definition percent (i n : nat) : Q :=
  inject_Z (Z.of_nat i) / inject_Z (Z.of_nat n) * 100.

(** The double quote character. *)
Definition dq : string := String (ascii_of_nat 34) EmptyString.

(** The loop [for (let i = a; i < a + n; i++)] over a mutable [s]. *)
Definition for_range {S} (a n : nat) (s : S) (body : S -> nat -> M S) : M S :=
  for_each body s (seq a n).

(** The same loop around calls that are awaited. *)
Definition await_range {S} (a n : nat) (s : S) (body : S -> nat -> Run S)
  : Run S :=
  await_each body s (seq a n).

(** ** js/converters.js

    Releasing memory ([cleanupCanvas], [pdf.destroy()]) is left out: it
    changes no result. *)

Module Converters.

Definition htmlHead : string :=
  "<!DOCTYPE html><html><head><meta charset=" ++ dq ++ "UTF-8" ++ dq ++
  "><style>body{font-family:Arial;margin:40px;}" ++
  ".page{page-break-after:always;margin-bottom:30px;}</style></head><body>".

(** [tc.items.map(x => x.str)] *)
Definition runs (items : list TextItem) : list string := map str items.

(** [tc.items.map(x => x.str).join(' ')] *)
Definition paragraph (items : list TextItem) : string :=
  JsString.join " " (runs items).

Definition pageSection (i : nat) (items : list TextItem) : string :=
  "<div class=" ++ dq ++ "page" ++ dq ++ "><h3>Sayfa " ++ JsString.ofNat i ++
  "</h3><p>" ++ paragraph items ++ "</p></div>".

(** [file.name] *)
Definition nameOf (file : option File) : Res string :=
  match file with
  | Some f => Ok (file_name f)
  | None => Throw EngineTypeError
  end.

Definition pdfToWord (lib : Libs) (st : State) : M (list Artifact) :=
  let file := hd_error (files st) in
  arr <- lift (readFileAsArrayBuffer file) ;;
  pdf <- lift (getDocument lib arr) ;;
  html <- for_range 1 (numPages pdf) htmlHead (fun html i =>
    page <- lift (getPage pdf i) ;;
    tc <- lift (getTextContent page) ;;
    let html := (html ++ pageSection i tc)%string in
    updateProgress (percent i (numPages pdf)) ;;;
    ret html) ;;
  let html := (html ++ "</body></html>")%string in
  fname <- lift (nameOf file) ;;
  ret [ mkArtifact (JsString.replace fname ".pdf" ".html")
                   (BlobOfText html "text/html") ].

(** ASCII lower case, for the [i] flag of a regular expression. *)
Definition lower (c : ascii) : ascii :=
  let n := nat_of_ascii c in
  if ((65 <=? n) && (n <=? 90))%nat then ascii_of_nat (n + 32) else c.

Fixpoint lowerAll (s : string) : string :=
  match s with
  | EmptyString => EmptyString
  | String c s' => String (lower c) (lowerAll s')
  end.

(** [n.replace(/\.(doc|docx)$/i, '.pdf')]: the pattern can only match
    the last four or five characters. *)
Fixpoint replaceDocExt (n : string) : string :=
  if String.eqb (lowerAll n) ".doc" || String.eqb (lowerAll n) ".docx"
  then ".pdf"
  else match n with
       | EmptyString => EmptyString
       | String c n' => String c (replaceDocExt n')
       end.

(** One round of the [lines.forEach] callback on the document and [y]. *)
Definition drawLine (s : list DocOp * Z) (line : string) : list DocOp * Z :=
  let '(doc, y) := s in
  let '(doc, y) := if (280 <? y)%Z then (doc ++ [AddPage], 20%Z)
                   else (doc, y) in
  (doc ++ [Text line 15 y], (y + 7)%Z).

Definition drawLines (lines : list string) : list DocOp * Z :=
  fold_left drawLine lines ([], 20%Z).

Definition wordToPDF (lib : Libs) (st : State) : M (list Artifact) :=
  let file := hd_error (files st) in
  arr <- lift (readFileAsArrayBuffer file) ;;
  let text := match extractRawText lib arr with
              | Ok value => value
              | Throw _ => decode lib arr
              end in
  updateProgress 50 ;;;
  let lines := splitTextToSize lib text 180 in
  let doc := fst (drawLines lines) in
  updateProgress 100 ;;;
  fname <- lift (nameOf file) ;;
  ret [ mkArtifact (replaceDocExt fname) (BlobOfDoc doc) ].

(** Size and position of an image on a page of [pw] by [ph], in exact
    arithmetic: the result is [(x, y, iw, ih)] as passed to
    [doc.addImage], before the rounding of doubles
    ([Doubles.placeImage] has the doubles). *)
Definition placeImage (pw ph : Q) (width height : Z) : Q * Q * Q * Q :=
  let iw := pw - 20 in
  let ih := (inject_Z height * iw) / inject_Z width in
  let '(iw, ih) :=
    if negb (Qle_bool ih (ph - 20))
    then ((inject_Z width * (ph - 20)) / inject_Z height, ph - 20)
    else (iw, ih) in
  ((pw - iw) / 2, (ph - ih) / 2, iw, ih).

(** [await new Promise(r => { img.onload = r; img.src = dataUrl; })]:
    the promise is resolved when the image has loaded.  Nothing rejects
    it (there is no [onerror]): for an image that cannot be decoded it
    never settles. *)
Definition loaded (lib : Libs) (dataUrl : DataUrl) : Run (Z * Z) :=
  match imageSize lib dataUrl with
  | Some size => Settled (ret size)
  | None => Pending []
  end.

Definition imagesToPDF (lib : Libs) (st : State) : Run (list Artifact) :=
  let n := List.length (files st) in
  doc <~ await_range 0 n [] (fun doc i =>
    let doc := if (0 <? i)%nat then doc ++ [AddPage] else doc in
    dataUrl <~ Settled (lift (readFileAsDataURL (nth_error (files st) i))) ;;
    img <~ loaded lib dataUrl ;;
    let '(width, height) := img in
    let '(x, y, iw, ih) :=
      placeImage (pageWidth lib) (pageHeight lib) width height in
    let doc := doc ++ [AddImage dataUrl "JPEG" x y iw ih] in
    Settled (updateProgress (percent (i + 1) n) ;;; ret doc)) ;;
  Settled (ret [ mkArtifact "gorseller.pdf" (BlobOfDoc doc) ]).

(** [document.getElementById('outputFormat')?.value || 'jpg'] *)
Definition formatOf (lib : Libs) : string :=
  match outputFormat lib with
  | Some EmptyString => "jpg"
  | Some v => v
  | None => "jpg"
  end.

Definition mimeOf (fmt : string) : string :=
  if String.eqb fmt "png" then "image/png" else "image/jpeg".

Definition pdfToImages (lib : Libs) (st : State) : M (list Artifact) :=
  let file := hd_error (files st) in
  arr <- lift (readFileAsArrayBuffer file) ;;
  pdf <- lift (getDocument lib arr) ;;
  let fmt := formatOf lib in
  results <- for_range 1 (numPages pdf) [] (fun results i =>
    page <- lift (getPage pdf i) ;;
    canvas <- lift (render page 1) ;;
    let dataUrl := UrlOfCanvas canvas (mimeOf fmt) (85 # 100) in
    let blob := BlobOfDataUrl dataUrl in
    let results :=
      results ++ [ mkArtifact ("sayfa_" ++ JsString.ofNat i ++ "." ++ fmt)
                              blob ] in
    updateProgress (percent i (numPages pdf)) ;;;
    ret results) ;;
  ret results.

Definition splitPDF (lib : Libs) (st : State) : M (list Artifact) :=
  let file := hd_error (files st) in
  arr <- lift (readFileAsArrayBuffer file) ;;
  pdf <- lift (getDocument lib arr) ;;
  results <- for_range 1 (numPages pdf) [] (fun results i =>
    page <- lift (getPage pdf i) ;;
    canvas <- lift (render page 1) ;;
    let doc := [ AddImage (UrlOfCanvas canvas "image/jpeg" (8 # 10)) "JPEG"
                          0 0 (pageWidth lib) (pageHeight lib) ] in
    let blob := BlobOfDoc doc in
    let results :=
      results ++ [ mkArtifact ("sayfa_" ++ JsString.ofNat i ++ ".pdf")
                              blob ] in
    updateProgress (percent i (numPages pdf)) ;;;
    ret results) ;;
  ret results.

End Converters.

(** ** Vocabulary of the statements about the converters *)

Module Expected.

(** The first file can be read and opens as [pdf]. *)
Definition opens (lib : Libs) (st : State) (f : File) (pdf : PDF) : Prop :=
  exists arr,
    hd_error (files st) = Some f /\ file_bytes f = Some arr /\
    getDocument lib arr = Ok pdf.

(** Every page of [pdf] loads as [pg i] and renders at scale 1 as
    [cv i]. *)
Definition renders (pdf : PDF) (pg : nat -> Page) (cv : nat -> Canvas)
  : Prop :=
  forall i, (1 <= i <= numPages pdf)%nat ->
    getPage pdf i = Ok (pg i) /\ render (pg i) 1 = Ok (cv i).


(** The entry [pdfToImages] makes for page [i] rendered as [c]. *)
Definition pageImage (fmt : string) (c : Canvas) (i : nat) : Artifact :=
  mkArtifact ("sayfa_" ++ JsString.ofNat i ++ "." ++ fmt)
    (BlobOfDataUrl (UrlOfCanvas c (Converters.mimeOf fmt) (85 # 100))).

(** The entry [splitPDF] makes for page [i] rendered as [c]. *)
Definition pageDocument (lib : Libs) (c : Canvas) (i : nat) : Artifact :=
  mkArtifact ("sayfa_" ++ JsString.ofNat i ++ ".pdf")
    (BlobOfDoc [ AddImage (UrlOfCanvas c "image/jpeg" (8 # 10)) "JPEG"
                          0 0 (pageWidth lib) (pageHeight lib) ]).



(** The text [wordToPDF] lays out: what mammoth extracts, or the decoded
    bytes when mammoth rejects the file. *)
Definition textOf (lib : Libs) (arr : ArrayBuffer) : string :=
  match extractRawText lib arr with
  | Ok value => value
  | Throw _ => decode lib arr
  end.

(** The drawing calls for [lines] when the running coordinate is [y]. *)
Fixpoint layout (y : Z) (lines : list string) : list DocOp :=
  match lines with
  | [] => []
  | line :: rest =>
      if (280 <? y)%Z
      then AddPage :: Text line 15 20 :: layout (20 + 7) rest
      else Text line 15 y :: layout (y + 7) rest
  end.

(** The lines of text a document draws, in order. *)
Definition drawnLines (ops : list DocOp) : list string :=
  flat_map (fun op => match op with
                      | Text line _ _ => [line]
                      | _ => []
                      end) ops.

(** A line of text is drawn at x = 15 and at a height from 20 to 280. *)
Definition withinPage (op : DocOp) : Prop :=
  match op with
  | Text _ x y => x = 15%Z /\ (20 <= y <= 280)%Z
  | _ => True
  end.

(** The images a document draws, in order. *)
Definition drawnImages (ops : list DocOp) : list DataUrl :=
  flat_map (fun op => match op with
                      | AddImage d _ _ _ _ _ => [d]
                      | _ => []
                      end) ops.

(** An image is drawn inside the 10-unit margins of the page, with the
    proportions of its source, centred. *)
Definition placed (lib : Libs) (op : DocOp) : Prop :=
  match op with
  | AddImage d _ x y iw ih =>
      match imageSize lib d with
      | Some (width, height) =>
          iw <= pageWidth lib - 20 /\
          ih <= pageHeight lib - 20 /\
          iw / ih == inject_Z width / inject_Z height /\
          x = (pageWidth lib - iw) / 2 /\
          y = (pageHeight lib - ih) / 2
      | None => False
      end
  | _ => True
  end.

(** The lines of text a document draws with the height of each, in
    order. *)
Definition drawnAt (ops : list DocOp) : list (string * Z) :=
  flat_map (fun op => match op with
                      | Text line _ y => [(line, y)]
                      | _ => []
                      end) ops.

(** The running coordinate [y] of [wordToPDF] when [j] lines have been
    drawn: 20 at the start, and 7 below the last line after that, which
    is 286 after the last line of a page. *)
Definition runningY (j : nat) : Z :=
  match j with
  | O => 20
  | S k => 20 + 7 * Z.of_nat (k mod 38 + 1)
  end.

(** The drawing calls for [lines] when [j] lines have been drawn before:
    38 lines to a page, line k of a page (from 0) at the height 20 + 7 k,
    and a new page before the first line of every page but the first. *)
Fixpoint pagesFrom (j : nat) (lines : list string) : list DocOp :=
  match lines with
  | [] => []
  | line :: rest =>
      (if (0 <? j)%nat && (j mod 38 =? 0)%nat then [AddPage] else [])
      ++ Text line 15 (20 + 7 * Z.of_nat (j mod 38))
      :: pagesFrom (S j) rest
  end.

End Expected.

(** ** The older copy of the converters (unnamed part) *)

Module Part000.

Definition htmlHead : string :=
  "<!DOCTYPE html><html><head><meta charset=" ++ dq ++ "UTF-8" ++ dq ++
  "><style>body{font-family:Arial;margin:40px;}" ++
  ".page{page-break-after:always;margin-bottom:30px;}</style></head><body>".

Definition runs (items : list TextItem) : list string := map str items.

Definition paragraph (items : list TextItem) : string :=
  JsString.join " " (runs items).

Definition pageSection (i : nat) (items : list TextItem) : string :=
  "<div class=" ++ dq ++ "page" ++ dq ++ "><h3>Sayfa " ++ JsString.ofNat i ++
  "</h3><p>" ++ paragraph items ++ "</p></div>".

Definition nameOf (file : option File) : Res string :=
  match file with
  | Some f => Ok (file_name f)
  | None => Throw EngineTypeError
  end.

Definition pdfToWord (lib : Libs) (st : State) : M (list Artifact) :=
  let file := hd_error (files st) in
  arr <- lift (readFileAsArrayBuffer file) ;;
  pdf <- lift (getDocument lib arr) ;;
  html <- for_range 1 (numPages pdf) htmlHead (fun html i =>
    page <- lift (getPage pdf i) ;;
    tc <- lift (getTextContent page) ;;
    let html := (html ++ pageSection i tc)%string in
    updateProgress (percent i (numPages pdf)) ;;;
    ret html) ;;
  let html := (html ++ "</body></html>")%string in
  fname <- lift (nameOf file) ;;
  ret [ mkArtifact (JsString.replace fname ".pdf" ".html")
                   (BlobOfText html "text/html") ].

End Part000.

(** ** The Layout Fitter's choice of font size *)

Module Fitter.

(** Modelled from the spec: the box of a span.  The fitter belongs to
    the translation backend, which is not among the JavaScript sources.
    Sizes and lengths are integers in one document unit (for instance
    hundredths of a point), so that a fixed decrement is exact. *)
Record Box : Type := mkBox {
  box_width : Z;
  box_height : Z
}.

(** Modelled from the spec: the target font's metrics, the rendered
    width and height of a text at a font size (the backend's font
    measurement is not among the sources). *)
Record Metrics : Type := mkMetrics {
  textWidth : string -> Z -> Z;
  textHeight : string -> Z -> Z
}.

(** Modelled from the spec: the tunable parameters of the fitter, which
    is not among the sources: the fixed shrink step and the legibility
    floor as a percentage of the original size. *)
Record Config : Type := mkConfig {
  decrement : Z;
  floorPercent : Z
}.

(** Modelled from the spec: the RenderPlan of the fitter, which is not
    among the sources, reduced to the chosen font size and the flag that
    the text fits at it. *)
Record RenderPlan : Type := mkPlan {
  fontSize : Z;
  fitsAtSize : bool
}.

(** Modelled from the spec: the configured floor of the fitter (not
    among the sources), a percentage of the original size. *)
Definition floorSize (cfg : Config) (original : Z) : Z :=
  (original * floorPercent cfg / 100)%Z.

(** Modelled from the spec: the overflow test of the fitter (not among
    the sources): the text is wider or higher than the box. *)
Definition overflows (m : Metrics) (box : Box) (text : string) (size : Z)
  : bool :=
  (box_width box <? textWidth m text size)%Z ||
  (box_height box <? textHeight m text size)%Z.

(** Modelled from the spec: the shrink loop of the Layout Fitter, which is
    part of the translation backend and not among the JavaScript sources.
    The text is measured at the current size; while it overflows, the
    size goes down by the fixed decrement, but never below the floor;
    [k] bounds the number of decrements. *)
Fixpoint shrink (m : Metrics) (cfg : Config) (box : Box) (text : string)
    (floor : Z) (k : nat) (size : Z) : Z :=
  if negb (overflows m box text size) then size
  else match k with
       | O => size
       | S k' =>
           shrink m cfg box text floor k'
             (Z.max floor (size - decrement cfg))
       end.

(** Modelled from the spec: the number of decrements of the fitter (not
    among the sources) that take the original size down to the floor. *)
Definition decrements (cfg : Config) (original : Z) : nat :=
  Z.to_nat ((original - floorSize cfg original) / decrement cfg + 1).

(** Modelled from the spec: steps 1 and 2 of the Layout Fitter (start at
    the original font size, shrink in fixed decrements down to the
    configured floor), giving the font size of the RenderPlan and whether
    the text fits at it without wrapping or truncation.  The backend code
    of the fitter is not among the JavaScript sources. *)
Definition fit (m : Metrics) (cfg : Config) (box : Box) (original : Z)
    (text : string) : RenderPlan :=
  let floor := floorSize cfg original in
  let size := shrink m cfg box text floor (decrements cfg original)
                original in
  mkPlan size (negb (overflows m box text size)).


(** Modelled from the spec: an instance of the font measurement, which
    is not among the sources.
    A fixed-pitch font: every character is 6/10 of the size wide, a line
    is 12/10 of the size high. *)
Definition fixedPitch : Metrics :=
  mkMetrics
    (fun text size => (Z.of_nat (String.length text) * size * 6 / 10)%Z)
    (fun _ size => (size * 12 / 10)%Z).




End Fitter.

(** ** Concrete documents, environments and states *)

Module Scenario.

Definition bytes : ArrayBuffer := [Byte.x25; Byte.x50; Byte.x44; Byte.x46].

Definition report : File := mkFile "report.pdf" 4 (Some bytes).
Definition scan : File := mkFile "SCAN.PDF" 4 (Some bytes).

Definition controls (format : string) : Processing.Dom :=
  Processing.mkDom (Some "auto") (Some "tr") (Some format).

(** The message of a [TypeError] in the scenarios. *)
Definition typeError : string :=
  "Cannot read properties of null (reading 'error')".

(** A backend that answers every request with an error status and a JSON
    body without an [error] text. *)
Definition refusing (format : string) : Processing.Env :=
  Processing.mkEnv (controls format) "https://api.example"
    (fun _ _ => Ok (Processing.mkResponse false (Processing.JsonValue None)
                      (Ok [])))
    typeError.

(** A backend that answers every request with the given body. *)
Definition answering (format : string) (b : Body) : Processing.Env :=
  Processing.mkEnv (controls format) "https://api.example"
    (fun _ _ => Ok (Processing.mkResponse true (Processing.JsonValue None)
                      (Ok b)))
    typeError.

(** A backend that cannot be reached: the request is rejected. *)
Definition unreachable (format : string) : Processing.Env :=
  Processing.mkEnv (controls format) "https://api.example"
    (fun _ _ => Throw (Err "Failed to fetch"))
    typeError.

Definition idle : Processing.Tools :=
  let none := Settled (ret []) in
  Processing.mkTools none none none none none none none none none none.

Definition translating (f : File) : State :=
  mkState (Some "translate") [f].

(** A document of two pages; the first has a run of two spaces and an
    empty run between its two words. *)
Definition canvasOf (i : nat) : Canvas := mkCanvas 595 842 i.

Definition itemsOf (i : nat) : list TextItem :=
  match i with
  | 1%nat => [ mkTextItem "Hello"; mkTextItem "  "; mkTextItem EmptyString;
               mkTextItem "world" ]
  | _ => [ mkTextItem "Second page" ]
  end.

Definition pageOf (i : nat) : Page :=
  mkPage (Ok (itemsOf i)) (fun _ => Ok (canvasOf i)).

Definition twoPages : PDF :=
  mkPDF 2 (fun i => if ((1 <=? i) && (i <=? 2))%nat then Ok (pageOf i)
                    else Throw (Err "Invalid page request")).

(** A browser in which every buffer opens as [twoPages], mammoth rejects
    its input, text is wrapped one line per character, pages are A4 in
    millimetres and every image is 800 by 600. *)
Fixpoint perCharacter (text : string) : list string :=
  match text with
  | EmptyString => []
  | String c rest => String c EmptyString :: perCharacter rest
  end.

Definition browser : Libs :=
  mkLibs (fun _ => Ok twoPages)
         (fun _ => Throw (Err "not a docx"))
         (fun _ => "plain text")
         (fun text _ => perCharacter text)
         210 297
         (fun _ => Some (800, 600)%Z)
         None.

Definition letter : File := mkFile "Letter.DOCX" 4 (Some bytes).
Definition photo : File := mkFile "photo.jpg" 4 (Some bytes).

Definition holding (f : File) : State := mkState None [f].

(** The same browser with a text of forty characters, which fills one
    page of 38 lines and starts a second one. *)
Definition longText : string := "The quick brown fox jumps over the dog..".

Definition longBrowser : Libs :=
  mkLibs (fun _ => Ok twoPages)
         (fun _ => Throw (Err "not a docx"))
         (fun _ => longText)
         (fun text _ => perCharacter text)
         210 297
         (fun _ => Some (800, 600)%Z)
         None.

(** A file whose content is not an image the browser can decode, and a
    browser in which the content [bytes] loads as an image of 800 by 600
    and no other content loads. *)
Definition notAnImage : File :=
  mkFile "notes.jpg" 2 (Some [Byte.x68; Byte.x69]).

Definition decoding : Libs :=
  mkLibs (fun _ => Ok twoPages)
         (fun _ => Throw (Err "not a docx"))
         (fun _ => "plain text")
         (fun text _ => perCharacter text)
         210 297
         (fun d => match d with
                   | UrlOfFile [Byte.x25; Byte.x50; Byte.x44; Byte.x46] =>
                       Some (800, 600)%Z
                   | _ => None
                   end)
         None.

End Scenario.

From Stdlib Require Import Lqa.

(** ** js/converters.js: merging and compressing in the browser *)

Module MoreConverters.

(** The image [mergePDFs] and [splitPDF] draw for a rendered page. *)
Definition pageJpeg (lib : Libs) (quality : Q) (c : Canvas) : DocOp :=
  AddImage (UrlOfCanvas c "image/jpeg" quality) "JPEG"
           0 0 (pageWidth lib) (pageHeight lib).

Definition mergePDFs (lib : Libs) (st : State) : M (list Artifact) :=
  let n := List.length (files st) in
  r <- for_range 0 n ([], true) (fun '(doc, first) f =>
    arr <- lift (readFileAsArrayBuffer (nth_error (files st) f)) ;;
    pdf <- lift (getDocument lib arr) ;;
    r <- for_range 1 (numPages pdf) (doc, first) (fun '(doc, first) i =>
      let doc := if negb first then doc ++ [AddPage] else doc in
      let first := false in
      page <- lift (getPage pdf i) ;;
      canvas <- lift (render page 1) ;;
      let doc := doc ++ [pageJpeg lib (8 # 10) canvas] in
      ret (doc, first)) ;;
    updateProgress (percent (f + 1) n) ;;;
    ret r) ;;
  ret [ mkArtifact "birlesik.pdf" (BlobOfDoc (fst r)) ].

(** The compression ratio is only written to the console, which is not
    recorded. *)
Definition compressPDF (lib : Libs) (st : State) : M (list Artifact) :=
  let file := hd_error (files st) in
  arr <- lift (readFileAsArrayBuffer file) ;;
  pdf <- lift (getDocument lib arr) ;;
  doc <- for_range 1 (numPages pdf) [] (fun doc i =>
    let doc := if (1 <? i)%nat then doc ++ [AddPage] else doc in
    page <- lift (getPage pdf i) ;;
    canvas <- lift (render page 1) ;;
    let doc := doc ++ [pageJpeg lib (5 # 10) canvas] in
    updateProgress (percent i (numPages pdf)) ;;;
    ret doc) ;;
  fname <- lift (Converters.nameOf file) ;;
  ret [ mkArtifact (JsString.replace fname ".pdf" "_sikistirilmis.pdf")
                   (BlobOfDoc doc) ].

(** A document of one image per page: a new page before every image but
    the first. *)
Definition pagesDoc (images : list DocOp) : list DocOp :=
  match images with
  | [] => []
  | first :: rest => first :: flat_map (fun img => [AddPage; img]) rest
  end.

(** The pages of a [jsPDF] document: the one it starts with and one for
    every [addPage]. *)
Definition pageCount (ops : list DocOp) : nat :=
  S (List.length (filter (fun op => match op with
                                    | AddPage => true
                                    | _ => false
                                    end) ops)).

(** Every file of the state can be read and opens as [pdfs k], and every
    page of it loads and renders at scale 1 as [cv k i]. *)
Definition allRender (lib : Libs) (st : State) (pdfs : nat -> PDF)
    (pg : nat -> nat -> Page) (cv : nat -> nat -> Canvas) : Prop :=
  forall k, (k < List.length (files st))%nat ->
    (exists f arr,
       nth_error (files st) k = Some f /\ file_bytes f = Some arr /\
       getDocument lib arr = Ok (pdfs k)) /\
    Expected.renders (pdfs k) (pg k) (cv k).

(** The rendered pages of files 0..n-1, file after file. *)
Definition allCanvases (pdfs : nat -> PDF) (cv : nat -> nat -> Canvas)
    (n : nat) : list Canvas :=
  flat_map (fun k => map (cv k) (seq 1 (numPages (pdfs k)))) (seq 0 n).

(** The document and the [first] flag of [mergePDFs] once the pages [cs]
    have been drawn. *)
Definition merged (lib : Libs) (cs : list Canvas) : list DocOp * bool :=
  (pagesDoc (map (pageJpeg lib (8 # 10)) cs),
   match cs with
   | [] => true
   | _ :: _ => false
   end).

(** Page [i] of [pdf] does not load, or loads and does not render at
    scale 1. *)
Definition pageFails (pdf : PDF) (i : nat) : Prop :=
  (exists e, getPage pdf i = Throw e) \/
  (exists p e, getPage pdf i = Ok p /\ render p 1 = Throw e).

(** The run ends by throwing: no list of results is returned. *)
Definition throws {A : Type} (m : M A) : Prop :=
  exists ev e, m = (ev, Throw e).

(** The call returns nothing: it ends by throwing, or it never ends. *)
Definition returnsNothing {A : Type} (r : Run A) : Prop :=
  match r with
  | Settled m => throws m
  | Pending _ => True
  end.

(** Every selected file that can be read loads as an image. *)
Definition imagesLoad (lib : Libs) (st : State) : Prop :=
  forall f b, In f (files st) -> file_bytes f = Some b ->
    imageSize lib (UrlOfFile b) <> None.

End MoreConverters.

(** ** More concrete documents and states *)

Module Scenario2.

Definition unreadable : File := mkFile "broken.pdf" 4 None.

(** A document whose second page fails to load. *)
Definition tornPages : PDF :=
  mkPDF 2 (fun i => if (i =? 1)%nat then Ok (Scenario.pageOf i)
                    else Throw (Err "Invalid page request")).

Definition tornBrowser : Libs :=
  mkLibs (fun _ => Ok tornPages)
         (fun _ => Throw (Err "not a docx"))
         (fun _ => "plain text")
         (fun text _ => Scenario.perCharacter text)
         210 297
         (fun _ => Some (800, 600)%Z)
         None.

Definition merging (l : list File) : State := mkState (Some "merge-pdf") l.

End Scenario2.

(** ** js/processing.js: what the page displays *)

Module Display.

(** Decimal text of a size. *)
Definition ofN (n : N) : string := NilEmpty.string_of_uint (N.to_uint n).

(** The integer n for which n / 10 is nearest to num / den, the larger
    one of two: the rounding of [toFixed(1)]. *)
Definition tenths (num den : N) : N :=
  ((20 * num + den) / (2 * den))%N.

(** [(num / den).toFixed(1)] for a quotient that the division computes
    exactly: the digits of n / 10, a point and the last digit of n. *)
Definition toFixed1 (num den : N) : string :=
  let n := tenths num den in
  ofN (n / 10) ++ "." ++ ofN (n mod 10).

(** [formatFileSize(bytes)] for the size of a blob.  A size is an integer
    below 2^53, so [bytes / 1024] and [bytes / (1024 * 1024)], divisions
    by a power of two, are exact in doubles and [toFixed] rounds the true
    quotient. *)
Definition formatFileSize (bytes : N) : string :=
  if (bytes <? 1024)%N then ofN bytes ++ " B"
  else if (bytes <? 1024 * 1024)%N then toFixed1 bytes 1024 ++ " KB"
  else toFixed1 bytes (1024 * 1024) ++ " MB".

(** The status line [updateProgress(p)] writes, for a finite [p]. *)
Definition statusOf (p : Q) : string :=
  if negb (Qle_bool 20 p) then "Dosya yükleniyor..."
  else if negb (Qle_bool 40 p) then "Dönüştürme başlatıldı..."
  else if negb (Qle_bool 70 p) then "Çeviri yapılıyor..."
  else if negb (Qle_bool 90 p) then "Çıktı hazırlanıyor..."
  else "Tamamlanıyor...".

(** The width in percent of the bar after [updateProgress(p)], when its
    width was [previous] before:
    [el.style.width = Math.min(p, 100) + '%'].  A negative percentage is
    not a width: the browser ignores the assignment and the bar keeps
    the width it had. *)
Definition barWidth (previous p : Q) : Q :=
  if Qle_bool 0 p then (if Qle_bool p 100 then p else 100)
  else previous.

(** The status lines a trace of events puts on the page, in order. *)
Definition statusLines (trace : list Event) : list string :=
  flat_map (fun ev => match ev with
                      | UpdateProgress p => [statusOf p]
                      | _ => []
                      end) trace.

End Display.

(** ** js/processing.js: the other backend tools *)

Module Backend.

Import Processing.

(** The value of [parseInt]: not a number, or an integer.  The model is
    that of the safe integers, of a magnitude below 2^53, which a double
    holds, prints and increments exactly ([safeInteger]). *)
Inductive JsNumber : Type :=
| NaN
| Int (z : Z).


(** [n.toString()] and [n] inside a string concatenation. *)
Definition numberText (n : JsNumber) : string :=
  match n with
  | NaN => "NaN"
  | Int z => NilEmpty.string_of_int (Z.to_int z)
  end.

(** [n + 1] *)
Definition plusOne (n : JsNumber) : JsNumber :=
  match n with
  | NaN => NaN
  | Int z => Int (z + 1)
  end.

(** The further form controls the backend tools read: the translate
    check box ([None]: missing, else whether it is checked) and the image
    controls ([None]: missing, else [parseInt] of the value for page and
    DPI, the value itself for the format). *)
Record Controls : Type := mkControls {
  translateOption : option bool;
  imagePage : option JsNumber;
  imageFormat : option string;
  imageDPI : option JsNumber
}.

(** [blob.size] of the body of an answer. *)
Definition sizeOf (b : Body) : N := N.of_nat (List.length b).

(** [if (x) formData.append(key, x.value)] *)
Definition optionalField (key : string) (x : option string) : FormData :=
  match x with
  | Some v => [ (key, FormText v) ]
  | None => []
  end.

(** The form of [pdfToWordBackend] and [pdfToExcelBackend]. *)
Definition convertForm (st : State) (env : Env) (ctl : Controls) : FormData :=
  [ ("file", fileValue (hd_error (files st)));
    ("translate", FormText (match translateOption ctl with
                            | Some true => "true"
                            | Some false => "false"
                            | None => "false"
                            end)) ]
  ++ optionalField "source" (sourceLang (dom env))
  ++ optionalField "target" (targetLang (dom env)).

Definition pdfToWordBackend (st : State) (env : Env) (ctl : Controls)
  : M (list Artifact) :=
  updateProgress 10 ;;;
  let file := hd_error (files st) in
  let formData := convertForm st env ctl in
  updateProgress 30 ;;;
  try_catch
    (response <- fetch env (BACKEND_URL env ++ "/pdf-to-word") formData ;;
     (if negb (ok response) then throw (backendError (json response))
      else ret tt) ;;;
     updateProgress 90 ;;;
     blob <- lift (body response) ;;
     fileName <- lift (renamed file ".docx") ;;
     updateProgress 100 ;;;
     ret [ mkArtifact fileName (BlobOfBody blob) ])
    (fun error => throw error).

Definition pdfToExcelBackend (st : State) (env : Env) (ctl : Controls)
  : M (list Artifact) :=
  updateProgress 10 ;;;
  let file := hd_error (files st) in
  let formData := convertForm st env ctl in
  updateProgress 30 ;;;
  try_catch
    (response <- fetch env (BACKEND_URL env ++ "/pdf-to-excel") formData ;;
     (if negb (ok response) then throw (backendError (json response))
      else ret tt) ;;;
     updateProgress 90 ;;;
     blob <- lift (body response) ;;
     fileName <- lift (renamed file ".xlsx") ;;
     updateProgress 100 ;;;
     ret [ mkArtifact fileName (BlobOfBody blob) ])
    (fun error => throw error).

(** [x ? parseInt(x.value) : dflt] *)
Definition numberOr (x : option JsNumber) (dflt : Z) : JsNumber :=
  match x with
  | Some n => n
  | None => Int dflt
  end.

Definition imageForm (st : State) (ctl : Controls) : FormData :=
  [ ("file", fileValue (hd_error (files st)));
    ("page", FormText (numberText (numberOr (imagePage ctl) 0)));
    ("format", FormText (valueOr (imageFormat ctl) "png"));
    ("dpi", FormText (numberText (numberOr (imageDPI ctl) 300))) ].

Definition pdfToImageBackend (st : State) (env : Env) (ctl : Controls)
  : M (list Artifact) :=
  updateProgress 10 ;;;
  let file := hd_error (files st) in
  let page := numberOr (imagePage ctl) 0 in
  let format := valueOr (imageFormat ctl) "png" in
  let formData := imageForm st ctl in
  updateProgress 30 ;;;
  try_catch
    (response <- fetch env (BACKEND_URL env ++ "/pdf-to-image") formData ;;
     (if negb (ok response) then throw (backendError (json response))
      else ret tt) ;;;
     updateProgress 90 ;;;
     blob <- lift (body response) ;;
     let ext := if String.eqb format "jpg" then "jpg" else "png" in
     let suffix :=
       ("_page" ++ numberText (plusOne page) ++ "." ++ ext)%string in
     fileName <- lift (renamed file suffix) ;;
     updateProgress 100 ;;;
     ret [ mkArtifact fileName (BlobOfBody blob) ])
    (fun error => throw error).

Definition imagesForm (st : State) (ctl : Controls) : FormData :=
  [ ("file", fileValue (hd_error (files st)));
    ("format", FormText (valueOr (imageFormat ctl) "png"));
    ("dpi", FormText (numberText (numberOr (imageDPI ctl) 300))) ].

Definition pdfToImagesBackend (st : State) (env : Env) (ctl : Controls)
  : M (list Artifact) :=
  updateProgress 10 ;;;
  let file := hd_error (files st) in
  let formData := imagesForm st ctl in
  updateProgress 30 ;;;
  try_catch
    (response <- fetch env (BACKEND_URL env ++ "/pdf-to-images") formData ;;
     (if negb (ok response) then throw (backendError (json response))
      else ret tt) ;;;
     updateProgress 90 ;;;
     blob <- lift (body response) ;;
     fileName <- lift (renamed file "_images.zip") ;;
     updateProgress 100 ;;;
     ret [ mkArtifact fileName (BlobOfBody blob) ])
    (fun error => throw error).

(** [file] where a property of it is read: [undefined] throws. *)
Definition defined (file : option File) : Res File :=
  match file with
  | Some f => Ok f
  | None => Throw EngineTypeError
  end.

Definition compressPDFBackend (st : State) (env : Env) (ctl : Controls)
  : M (list Artifact) :=
  updateProgress 10 ;;;
  let file := hd_error (files st) in
  let formData := [ ("file", fileValue file) ] in
  updateProgress 30 ;;;
  try_catch
    (response <- fetch env (BACKEND_URL env ++ "/compress") formData ;;
     (if negb (ok response) then throw (backendError (json response))
      else ret tt) ;;;
     updateProgress 90 ;;;
     blob <- lift (body response) ;;
     fileName <- lift (renamed file "_compressed.pdf") ;;
     f <- lift (defined file) ;;
     let ratio := Doubles.percentSaved (sizeOf blob) (file_size f) in
     updateProgress 100 ;;;
     showToast ("%" ++ ratio ++ " küçüldü!") "success" ;;;
     ret [ mkArtifact fileName (BlobOfBody blob) ])
    (fun error => throw error).

(** What [checkBackendHealth] returns: the parsed body of the answer, or
    [null]. *)
Definition Health := option JsonBody.

(** [checkBackendHealth]: a body that is not JSON makes [response.json()]
    reject, and reading [version] off [null] throws; both end in the
    [catch] block. *)
Definition checkBackendHealth (env : Env) : M Health :=
  try_catch
    (response <- fetch env (BACKEND_URL env ++ "/health") [] ;;
     if ok response then
       match json response with
       | JsonRejected => throw (Err "SyntaxError")
       | JsonNull => throw EngineTypeError
       | JsonValue e => ret (Some (JsonValue e))
       end
     else ret None)
    (fun _ => ret None).

(** No request is answered successfully: each is rejected or gets an
    answer that is not [ok]. *)
Definition backendDown (env : Env) : Prop :=
  forall url form,
    match backend env url form with
    | Throw _ => True
    | Ok r => ok r = false
    end.

(** Every request is answered successfully with the body [b]. *)
Definition backendUp (env : Env) (b : Body) : Prop :=
  forall url form,
    exists r, backend env url form = Ok r /\ ok r = true /\ body r = Ok b.

End Backend.

(** ** The page as loaded: [processFiles] with the tools it starts *)

Module App.

Definition tools (lib : Libs) (ctl : Backend.Controls)
    (env : Processing.Env) (st : State) : Processing.Tools :=
  Processing.mkTools
    (Settled (Backend.compressPDFBackend st env ctl))
    (Settled (Backend.pdfToWordBackend st env ctl))
    (Settled (Backend.pdfToExcelBackend st env ctl))
    (Settled (Backend.pdfToImageBackend st env ctl))
    (Settled (Backend.pdfToImagesBackend st env ctl))
    (Settled (Converters.wordToPDF lib st))
    (Converters.imagesToPDF lib st)
    (Settled (Converters.pdfToImages lib st))
    (Settled (MoreConverters.mergePDFs lib st))
    (Settled (Converters.splitPDF lib st)).

Definition processFiles (lib : Libs) (ctl : Backend.Controls)
    (env : Processing.Env) (st : State) : Run unit :=
  Processing.processFiles (tools lib ctl env st) env st.

(** The names of the tools that [processFiles] sends to the backend. *)
Definition backendTools : list string :=
  [ "translate"; "compress-pdf"; "pdf-to-word"; "pdf-to-excel";
    "pdf-to-image"; "pdf-to-images" ].

End App.

(** ** The page script: tools, selected files and their list

    The model follows [state.currentTool], [state.files] and the items of
    the file list on the page; the step changes and the opening and
    closing of the modal are recorded as events.  The texts it writes
    (title, accepted types, button labels) and the option panels are left
    out. *)

Module Ui.

Record Config : Type := mkConfig {
  title : string;
  accept : string;
  options : option string;
  multiple : bool
}.

Definition toolConfig : list (string * Config) :=
  [ ("translate",
     mkConfig "PDF Çeviri" ".pdf" (Some "translateOptions") false);
    ("pdf-to-word", mkConfig "PDF → Word" ".pdf" None false);
    ("word-to-pdf", mkConfig "Word → PDF" ".doc,.docx" None false);
    ("jpg-to-pdf", mkConfig "Görsel → PDF" ".jpg,.jpeg,.png,.gif,.webp"
                     (Some "imageOptions") true);
    ("pdf-to-jpg",
     mkConfig "PDF → Görsel" ".pdf" (Some "formatOptions") false);
    ("merge-pdf", mkConfig "PDF Birleştir" ".pdf" None true);
    ("split-pdf", mkConfig "PDF Böl" ".pdf" (Some "splitOptions") false);
    ("compress-pdf", mkConfig "PDF Sıkıştır" ".pdf" None false) ].

(** The property names every object inherits from [Object.prototype]:
    [toolConfig[name]] is a truthy value for them too. *)
Definition prototypeKeys : list string :=
  [ "constructor"; "hasOwnProperty"; "isPrototypeOf";
    "propertyIsEnumerable"; "toLocaleString"; "toString"; "valueOf";
    "__proto__"; "__defineGetter__"; "__defineSetter__";
    "__lookupGetter__"; "__lookupSetter__" ].

(** What [toolConfig[key]] gives: an entry of the table, an inherited
    member (truthy, without [title], [accept] or [multiple]), or
    [undefined]. *)
Inductive Lookup : Type :=
| Own (c : Config)
| Inherited
| Missing.

Fixpoint assoc (key : string) (table : list (string * Config))
  : option Config :=
  match table with
  | [] => None
  | (k, c) :: rest => if String.eqb k key then Some c else assoc key rest
  end.

Definition lookup (key : string) : Lookup :=
  match assoc key toolConfig with
  | Some c => Own c
  | None => if existsb (String.eqb key) prototypeKeys then Inherited
            else Missing
  end.

(** [toolConfig[state.currentTool]]: [null] is looked up as 'null'. *)
Definition lookupTool (tool : option string) : Lookup :=
  match tool with
  | Some t => lookup t
  | None => lookup "null"
  end.

(** [config.multiple], which an inherited member does not have. *)
Definition isMultiple (l : Lookup) : bool :=
  match l with
  | Own c => multiple c
  | Inherited => false
  | Missing => false
  end.

(** The elements of the page that decide what the script does. *)
Record Page : Type := mkPage {
  hasFileList : bool;
  hasUploadHint : bool
}.

Record Ui : Type := mkUi {
  tool : option string;
  selected : list File;    (* [state.files] *)
  listed : list File       (* the items of the file list, by their file *)
}.

Inductive UiEvent : Type :=
| Step (n : Z)                    (* [goToStep(n)] *)
| StepAfter (ms : Z) (n : Z)      (* [setTimeout(() => goToStep(n), ms)] *)
| ModalOpened
| ModalClosed.

Definition initial : Ui := mkUi None [] [].

(** [fileList.innerHTML = ''] on a page that has the list. *)
Definition cleared (page : Page) (items : list File) : list File :=
  if hasFileList page then [] else items.

(** [openTool(toolName)].  The state is set before the table is looked
    up.  For an inherited member, [config.accept] is [undefined] and
    building the upload hint throws when the page has that element: the
    list is then not cleared and the modal not opened. *)
Definition openTool (page : Page) (toolName : string) (ui : Ui)
  : Ui * list UiEvent * option Error :=
  let ui := mkUi (Some toolName) [] (listed ui) in
  match lookup toolName with
  | Missing => (ui, [], None)
  | Inherited =>
      if hasUploadHint page then (ui, [], Some EngineTypeError)
      else (mkUi (tool ui) (selected ui) (cleared page (listed ui)),
            [ Step 1; ModalOpened ], None)
  | Own _ =>
      (mkUi (tool ui) (selected ui) (cleared page (listed ui)),
       [ Step 1; ModalOpened ], None)
  end.

Definition closeModal (ui : Ui) : Ui * list UiEvent :=
  (mkUi None [] (listed ui), [ ModalClosed ]).

(** [resetTool] of js/processing.js. *)
Definition resetTool (page : Page) (ui : Ui) : Ui * list UiEvent :=
  (mkUi (tool ui) [] (cleared page (listed ui)), [ Step 1 ]).

(** [addFileToList(file)] for each of [fileList]: on a page that has the
    list, one more item per file. *)
Definition appended (page : Page) (items fileList : list File) : list File :=
  if hasFileList page then items ++ fileList else items.

Definition handleFiles (page : Page) (fileList : list File) (ui : Ui)
  : Ui * list UiEvent :=
  match fileList with
  | [] => (ui, [])
  | _ :: _ =>
      match lookupTool (tool ui) with
      | Missing => (ui, [])
      | config =>
          let ui :=
            if negb (isMultiple config)
               && negb (Nat.eqb (List.length (selected ui)) 0)
            then mkUi (tool ui) [] (cleared page (listed ui))
            else ui in
          let files := selected ui ++ fileList in
          (mkUi (tool ui) files (appended page (listed ui) fileList),
           if negb (Nat.eqb (List.length files) 0) then [ StepAfter 300 2 ]
           else [])
      end
  end.

(** Item [k] of the list without the others being touched. *)
Fixpoint without {A : Type} (k : nat) (l : list A) : list A :=
  match l, k with
  | [], _ => []
  | _ :: rest, O => rest
  | x :: rest, S k' => x :: without k' rest
  end.

(** The click on the remove button of item [k] of the list: every
    selected file with the name of the item's file is dropped from the
    state, and that one item from the list. *)
Definition removeItem (k : nat) (ui : Ui) : Ui * list UiEvent :=
  match nth_error (listed ui) k with
  | None => (ui, [])
  | Some file =>
      let files :=
        filter (fun f => negb (String.eqb (file_name f) (file_name file)))
               (selected ui) in
      (mkUi (tool ui) files (without k (listed ui)),
       if Nat.eqb (List.length files) 0 then [ Step 1 ] else [])
  end.

(** What the user can do on the page, and the state after a series of
    such actions. *)
Inductive Action : Type :=
| Open (toolName : string)
| Close
| Reset
| Drop (fileList : list File)
| Remove (k : nat).

Definition act (page : Page) (ui : Ui) (a : Action) : Ui :=
  match a with
  | Open t => fst (fst (openTool page t ui))
  | Close => fst (closeModal ui)
  | Reset => fst (resetTool page ui)
  | Drop l => fst (handleFiles page l ui)
  | Remove k => fst (removeItem k ui)
  end.

Definition after (page : Page) (actions : list Action) : Ui :=
  fold_left (act page) actions initial.

(** The state [processFiles] reads. *)
Definition stateOf (ui : Ui) : State := mkState (tool ui) (selected ui).

(** The list on the page shows the selected files. *)
Definition inSync (ui : Ui) : Prop := listed ui = selected ui.

End Ui.

(** ** The older copy of the converters: rendering at scale 1.5 *)

Module OlderCopy.

Definition pdfToImages (lib : Libs) (st : State) : M (list Artifact) :=
  let file := hd_error (files st) in
  arr <- lift (readFileAsArrayBuffer file) ;;
  pdf <- lift (getDocument lib arr) ;;
  let fmt := Converters.formatOf lib in
  results <- for_range 1 (numPages pdf) [] (fun results i =>
    page <- lift (getPage pdf i) ;;
    canvas <- lift (render page (15 # 10)) ;;
    let dataUrl := UrlOfCanvas canvas (Converters.mimeOf fmt) (85 # 100) in
    let blob := BlobOfDataUrl dataUrl in
    let results :=
      results ++ [ mkArtifact ("sayfa_" ++ JsString.ofNat i ++ "." ++ fmt)
                              blob ] in
    updateProgress (percent i (numPages pdf)) ;;;
    ret results) ;;
  ret results.

Definition splitPDF (lib : Libs) (st : State) : M (list Artifact) :=
  let file := hd_error (files st) in
  arr <- lift (readFileAsArrayBuffer file) ;;
  pdf <- lift (getDocument lib arr) ;;
  results <- for_range 1 (numPages pdf) [] (fun results i =>
    page <- lift (getPage pdf i) ;;
    canvas <- lift (render page (15 # 10)) ;;
    let doc := [ AddImage (UrlOfCanvas canvas "image/jpeg" (8 # 10)) "JPEG"
                          0 0 (pageWidth lib) (pageHeight lib) ] in
    let blob := BlobOfDoc doc in
    let results :=
      results ++ [ mkArtifact ("sayfa_" ++ JsString.ofNat i ++ ".pdf")
                              blob ] in
    updateProgress (percent i (numPages pdf)) ;;;
    ret results) ;;
  ret results.

(** [f] applied to a result that is not an error. *)
Definition mapRes {A B : Type} (f : A -> B) (r : Res A) : Res B :=
  match r with
  | Ok a => Ok (f a)
  | Throw e => Throw e
  end.

(** A page that renders at every scale as the given page renders at
    scale 1.5. *)
Definition enlargedPage (p : Page) : Page :=
  mkPage (getTextContent p) (fun _ => render p (15 # 10)).

Definition enlargedPDF (pdf : PDF) : PDF :=
  mkPDF (numPages pdf) (fun i => mapRes enlargedPage (getPage pdf i)).

(** The same browser, with every page of every document enlarged. *)
Definition enlarged (lib : Libs) : Libs :=
  mkLibs (fun arr => mapRes enlargedPDF (getDocument lib arr))
         (extractRawText lib) (decode lib) (splitTextToSize lib)
         (pageWidth lib) (pageHeight lib) (imageSize lib)
         (outputFormat lib).

End OlderCopy.

(** * Properties *)

(** ** Strings *)

Lemma append_empty_r (s : string) : (s ++ EmptyString)%string = s.
Proof. induction s as [|c s IH]; simpl; [reflexivity | now rewrite IH]. Qed.






Lemma getSubstitution_plain (m b a t : string) :
  JsString.noDollar t = true -> JsString.getSubstitution m b a t = t.
Proof.
  induction t as [|c t IH]; simpl; [reflexivity|].
  intros H. apply andb_true_iff in H. destruct H as [Hc Ht].
  apply negb_true_iff in Hc. rewrite Hc. now rewrite IH.
Qed.




(** ** js/processing.js *)

Import Processing.






(** A request that never ends: of two selected files the second is not
    an image the browser can decode; [imagesToPDF] draws the first and
    then waits for ever, and the page stays at step 3. *)
Example processFiles_undecodable_image :
  App.processFiles Scenario.decoding
    (Backend.mkControls None None None None) (Scenario.refusing "pdf")
    (mkState (Some "jpg-to-pdf") [Scenario.photo; Scenario.notAnImage])
  = Pending [ GoToStep 3; UpdateProgress 0; UpdateProgress (percent 1 2) ].
Proof. reflexivity. Qed.





(** C6, the code at the failing input.  In the markup mode the backend
    answers the translation of SCAN.PDF successfully; the extension
    computed from the mode is .html, and the artifact is named SCAN.PDF,
    which does not end in .html: [replace] looks for '.pdf' with its case
    and finds none.  The sibling [wordToPDF] replaces the extension of
    Letter.DOCX whatever its case. *)
Theorem translatePDFBackend_keeps_uppercase_name :
  formatOf (Scenario.answering "html" Scenario.bytes) = "html" /\
  extOf (formatOf (Scenario.answering "html" Scenario.bytes)) = ".html" /\
  translatePDFBackend (Scenario.translating Scenario.scan)
                      (Scenario.answering "html" Scenario.bytes)
  = ([ UpdateProgress 10; UpdateProgress 30;
       Fetch "https://api.example/translate-html"
         [ ("file", FormFile Scenario.scan);
           ("source", FormText "auto"); ("target", FormText "tr") ];
       UpdateProgress 90; UpdateProgress 100 ],
     Ok [ mkArtifact "SCAN.PDF" (BlobOfBody Scenario.bytes) ]) /\
  JsString.endsWith "SCAN.PDF" ".html" = false /\
  Converters.replaceDocExt "Letter.DOCX" = "Letter.pdf".
Proof. repeat split; reflexivity. Qed.

(** ** Loops *)

Lemma for_range_ok {S : Type} (P : nat -> S -> Prop)
    (body : S -> nat -> M S) (n : nat) :
  forall (a : nat) (s0 : S),
    P a s0 ->
    (forall i s, (a <= i < a + n)%nat -> P i s ->
       exists ev s', body s i = (ev, Ok s') /\ P (Datatypes.S i) s') ->
    exists ev s, for_range a n s0 body = (ev, Ok s) /\ P (a + n)%nat s.
Proof.
  unfold for_range. induction n as [|n IH]; intros a s0 H0 Hstep.
  - exists [], s0. rewrite Nat.add_0_r. split; [reflexivity | exact H0].
  - destruct (Hstep a s0 ltac:(lia) H0) as (ev1 & s1 & Hb & H1).
    destruct (IH (Datatypes.S a) s1 H1) as (ev2 & s2 & Hr & H2).
    { intros i s Hi. apply Hstep. lia. }
    exists (ev1 ++ ev2), s2. split.
    + cbn [seq for_each]. unfold bind. rewrite Hb.
      simpl in Hr. rewrite Hr. reflexivity.
    + replace (a + Datatypes.S n)%nat with (Datatypes.S a + n)%nat by lia.
      exact H2.
Qed.

Lemma await_range_ok {S : Type} (P : nat -> S -> Prop)
    (body : S -> nat -> Run S) (n : nat) :
  forall (a : nat) (s0 : S),
    P a s0 ->
    (forall i s, (a <= i < a + n)%nat -> P i s ->
       exists ev s', body s i = Settled (ev, Ok s')
                     /\ P (Datatypes.S i) s') ->
    exists ev s,
      await_range a n s0 body = Settled (ev, Ok s) /\ P (a + n)%nat s.
Proof.
  unfold await_range. induction n as [|n IH]; intros a s0 H0 Hstep.
  - exists [], s0. rewrite Nat.add_0_r. split; [reflexivity | exact H0].
  - destruct (Hstep a s0 ltac:(lia) H0) as (ev1 & s1 & Hb & H1).
    destruct (IH (Datatypes.S a) s1 H1) as (ev2 & s2 & Hr & H2).
    { intros i s Hi. apply Hstep. lia. }
    exists (ev1 ++ ev2), s2. split.
    + cbn [seq await_each]. unfold await. rewrite Hb.
      simpl in Hr. rewrite Hr. reflexivity.
    + replace (a + Datatypes.S n)%nat with (Datatypes.S a + n)%nat by lia.
      exact H2.
Qed.

(** ** Loops that stop at the first failure *)

Lemma for_each_throw {A S : Type} (body : S -> A -> M S) (x : A)
    (l : list A) :
  In x l ->
  (forall s, exists ev e, body s x = (ev, Throw e)) ->
  forall s0, exists ev e, for_each body s0 l = (ev, Throw e).
Proof.
  intros Hin Hx. induction l as [|y l IH]; intros s0; [destruct Hin|].
  cbn [for_each]. unfold bind.
  destruct Hin as [->|Hin].
  - destruct (Hx s0) as (ev & e & H). rewrite H. eauto.
  - destruct (body s0 y) as [ev [s1|e]]; [|eauto].
    destruct (IH Hin s1) as (ev' & e' & H). rewrite H. eauto.
Qed.

Lemma bind_lift_ok {A B : Type} (a : A) (k : A -> M B) :
  bind (lift (Ok a)) k = k a.
Proof. unfold bind, lift. destruct (k a). reflexivity. Qed.

Lemma bind_throw {A B : Type} (m : M A) (k : A -> M B) :
  (exists ev e, m = (ev, Throw e)) -> exists ev e, bind m k = (ev, Throw e).
Proof. intros (ev & e & ->). simpl. eauto. Qed.

Lemma for_range_throw {S : Type} (body : S -> nat -> M S) (a n k : nat)
    (s0 : S) :
  (a <= k < a + n)%nat ->
  (forall s, exists ev e, body s k = (ev, Throw e)) ->
  exists ev e, for_range a n s0 body = (ev, Throw e).
Proof.
  intros Hk Hb. unfold for_range.
  apply (for_each_throw body k); [apply in_seq; lia | exact Hb].
Qed.

Lemma pageFails_body {S : Type} (pdf : PDF) (i : nat)
    (k : Canvas -> M S) :
  MoreConverters.pageFails pdf i ->
  exists ev e,
    (page <- lift (getPage pdf i) ;;
     canvas <- lift (render page 1) ;; k canvas) = (ev, Throw e).
Proof.
  intros [[e He]|(p & e & Hp & He)].
  - rewrite He. simpl. eauto.
  - rewrite Hp. cbn [lift bind app]. rewrite He. simpl. eauto.
Qed.

Lemma pdfToImages_fails (lib : Libs) (st : State) (f : File) (pdf : PDF)
    (i : nat) :
  Expected.opens lib st f pdf ->
  (1 <= i <= numPages pdf)%nat -> MoreConverters.pageFails pdf i ->
  exists ev e, Converters.pdfToImages lib st = (ev, Throw e).
Proof.
  intros (arr & Hf & Hb & Hd) Hi Hfail.
  assert (Hread : readFileAsArrayBuffer (hd_error (files st)) = Ok arr)
    by (rewrite Hf; simpl; now rewrite Hb).
  unfold Converters.pdfToImages.
  rewrite Hread, bind_lift_ok, Hd, bind_lift_ok. apply bind_throw.
  apply (for_range_throw _ 1 _ i); [lia|].
  intros rs. apply (pageFails_body pdf i _ Hfail).
Qed.

Lemma splitPDF_fails (lib : Libs) (st : State) (f : File) (pdf : PDF)
    (i : nat) :
  Expected.opens lib st f pdf ->
  (1 <= i <= numPages pdf)%nat -> MoreConverters.pageFails pdf i ->
  exists ev e, Converters.splitPDF lib st = (ev, Throw e).
Proof.
  intros (arr & Hf & Hb & Hd) Hi Hfail.
  assert (Hread : readFileAsArrayBuffer (hd_error (files st)) = Ok arr)
    by (rewrite Hf; simpl; now rewrite Hb).
  unfold Converters.splitPDF.
  rewrite Hread, bind_lift_ok, Hd, bind_lift_ok. apply bind_throw.
  apply (for_range_throw _ 1 _ i); [lia|].
  intros rs. apply (pageFails_body pdf i _ Hfail).
Qed.

(** ** Decimal numerals and names *)

Lemma length_append (a b : string) :
  String.length (a ++ b) = (String.length a + String.length b)%nat.
Proof. induction a as [|c a IH]; simpl; [reflexivity | now rewrite IH]. Qed.

Lemma append_cancel_r (c a b : string) :
  (a ++ c)%string = (b ++ c)%string -> a = b.
Proof.
  revert b. induction a as [|x a IH]; intros [|y b] H.
  - reflexivity.
  - apply (f_equal String.length) in H.
    change (String y b ++ c)%string with (String y (b ++ c)) in H.
    simpl in H. rewrite length_append in H. lia.
  - apply (f_equal String.length) in H.
    change (String x a ++ c)%string with (String x (a ++ c)) in H.
    simpl in H. rewrite length_append in H. lia.
  - simpl in H. injection H as Hxy Hab. subst y. f_equal. now apply IH.
Qed.

Lemma ofNat_inj (a b : nat) : JsString.ofNat a = JsString.ofNat b -> a = b.
Proof.
  unfold JsString.ofNat. intros H.
  apply (f_equal NilEmpty.uint_of_string) in H.
  rewrite !NilEmpty.usu in H. injection H as H.
  apply (f_equal Nat.of_uint) in H.
  now rewrite !DecimalNat.Unsigned.of_to in H.
Qed.

Lemma pageName_inj (ext : string) (a b : nat) :
  ("sayfa_" ++ JsString.ofNat a ++ ext)%string
  = ("sayfa_" ++ JsString.ofNat b ++ ext)%string -> a = b.
Proof.
  intros H. simpl in H. injection H as H.
  apply ofNat_inj. now apply append_cancel_r in H.
Qed.

Lemma NoDup_map_seq {A : Type} (g : nat -> A) (a n : nat) :
  (forall i j, g i = g j -> i = j) -> NoDup (map g (seq a n)).
Proof.
  intros Hinj. revert a. induction n as [|n IH]; intros a; simpl.
  - constructor.
  - constructor; [|apply IH].
    intros Hin. apply in_map_iff in Hin. destruct Hin as (j & Hg & Hj).
    apply Hinj in Hg. apply in_seq in Hj. lia.
Qed.

Lemma seq_snoc (i : nat) :
  (1 <= i)%nat -> seq 1 i = seq 1 (i - 1) ++ [i].
Proof.
  intros Hi. replace i with (Datatypes.S (i - 1)) at 1 by lia.
  rewrite seq_S. do 2 f_equal. lia.
Qed.

(** ** js/converters.js: one entry per page, in page order *)

Lemma pdfToImages_run (lib : Libs) (st : State) (f : File) (pdf : PDF)
    (pg : nat -> Page) (cv : nat -> Canvas) :
  Expected.opens lib st f pdf -> Expected.renders pdf pg cv ->
  snd (Converters.pdfToImages lib st)
  = Ok (map (fun i => Expected.pageImage (Converters.formatOf lib) (cv i) i)
            (seq 1 (numPages pdf))).
Proof.
  intros (arr & Hf & Hb & Hd) Hr. unfold Converters.pdfToImages.
  rewrite Hf. cbn [readFileAsArrayBuffer]. rewrite Hb.
  cbn [lift bind app]. rewrite Hd. cbn [bind app].
  match goal with |- context [for_range 1 ?n [] ?b] =>
    destruct (for_range_ok
      (fun i rs => rs = map (fun k => Expected.pageImage
                               (Converters.formatOf lib) (cv k) k)
                            (seq 1 (i - 1))) b n 1 [] eq_refl)
      as (ev & rs & Hrun & Hrs)
  end.
  { intros i rs Hi Hrs. destruct (Hr i ltac:(lia)) as [Hp Hc].
    rewrite Hp. cbn [lift bind app]. rewrite Hc. cbn [lift bind app].
    eexists. eexists. split; [reflexivity|].
    rewrite Hrs. replace (Datatypes.S i - 1)%nat with i by lia.
    rewrite (seq_snoc i) by lia. rewrite map_app. reflexivity. }
  rewrite Hrun. cbn [bind ret snd app]. rewrite Hrs.
  replace (1 + numPages pdf - 1)%nat with (numPages pdf) by lia.
  reflexivity.
Qed.

Lemma splitPDF_run (lib : Libs) (st : State) (f : File) (pdf : PDF)
    (pg : nat -> Page) (cv : nat -> Canvas) :
  Expected.opens lib st f pdf -> Expected.renders pdf pg cv ->
  snd (Converters.splitPDF lib st)
  = Ok (map (fun i => Expected.pageDocument lib (cv i) i)
            (seq 1 (numPages pdf))).
Proof.
  intros (arr & Hf & Hb & Hd) Hr. unfold Converters.splitPDF.
  rewrite Hf. cbn [readFileAsArrayBuffer]. rewrite Hb.
  cbn [lift bind app]. rewrite Hd. cbn [bind app].
  match goal with |- context [for_range 1 ?n [] ?b] =>
    destruct (for_range_ok
      (fun i rs => rs = map (fun k => Expected.pageDocument lib (cv k) k)
                            (seq 1 (i - 1))) b n 1 [] eq_refl)
      as (ev & rs & Hrun & Hrs)
  end.
  { intros i rs Hi Hrs. destruct (Hr i ltac:(lia)) as [Hp Hc].
    rewrite Hp. cbn [lift bind app]. rewrite Hc. cbn [lift bind app].
    eexists. eexists. split; [reflexivity|].
    rewrite Hrs. replace (Datatypes.S i - 1)%nat with i by lia.
    rewrite (seq_snoc i) by lia. rewrite map_app. reflexivity. }
  rewrite Hrun. cbn [bind ret snd app]. rewrite Hrs.
  replace (1 + numPages pdf - 1)%nat with (numPages pdf) by lia.
  reflexivity.
Qed.

Lemma nth_error_map_seq {A : Type} (g : nat -> A) (n i : nat) :
  (i < n)%nat -> nth_error (map g (seq 1 n)) i = Some (g (Datatypes.S i)).
Proof.
  intros Hi. rewrite nth_error_map.
  rewrite (nth_error_nth' _ 0%nat) by (rewrite length_seq; exact Hi).
  rewrite seq_nth by exact Hi. reflexivity.
Qed.

(** C3, as the code has it.  For a document that opens with N pages:
    when each page loads and renders, [splitPDF] and [pdfToImages] both
    return exactly N entries, the names of the entries are pairwise
    different (no page twice) and every page 1..N has its entry (no page
    dropped); when one page does not load or does not render, both end by
    throwing and return no entry at all, the entries made for the pages
    before it included. *)
Theorem one_entry_per_page_or_none (lib : Libs) (st : State) (f : File)
    (pdf : PDF) :
  Expected.opens lib st f pdf ->
  (forall (pg : nat -> Page) (cv : nat -> Canvas),
     Expected.renders pdf pg cv ->
     (exists results,
        snd (Converters.splitPDF lib st) = Ok results /\
        List.length results = numPages pdf /\
        NoDup (map name results) /\
        forall i, (1 <= i <= numPages pdf)%nat ->
          In (Expected.pageDocument lib (cv i) i) results) /\
     (exists results,
        snd (Converters.pdfToImages lib st) = Ok results /\
        List.length results = numPages pdf /\
        NoDup (map name results) /\
        forall i, (1 <= i <= numPages pdf)%nat ->
          In (Expected.pageImage (Converters.formatOf lib) (cv i) i)
             results)) /\
  (forall i, (1 <= i <= numPages pdf)%nat ->
     MoreConverters.pageFails pdf i ->
     (exists ev e, Converters.splitPDF lib st = (ev, Throw e)) /\
     (exists ev e, Converters.pdfToImages lib st = (ev, Throw e))).
Proof.
  intros Ho. split.
  - intros pg cv Hr. split.
    + eexists. split; [apply (splitPDF_run lib st f pdf pg cv Ho Hr)|].
      split; [now rewrite length_map, length_seq|]. split.
      * rewrite map_map. apply NoDup_map_seq. intros i j.
        apply pageName_inj.
      * intros i Hi. apply in_map_iff. exists i. split; [reflexivity|].
        apply in_seq. lia.
    + eexists. split; [apply (pdfToImages_run lib st f pdf pg cv Ho Hr)|].
      split; [now rewrite length_map, length_seq|]. split.
      * rewrite map_map. apply NoDup_map_seq. intros i j.
        apply pageName_inj.
      * intros i Hi. apply in_map_iff. exists i. split; [reflexivity|].
        apply in_seq. lia.
  - intros i Hi Hfail. split.
    + exact (splitPDF_fails lib st f pdf i Ho Hi Hfail).
    + exact (pdfToImages_fails lib st f pdf i Ho Hi Hfail).
Qed.

Lemma one_entry_per_page_or_none_witness :
  ((exists results,
      snd (Converters.splitPDF Scenario.browser
             (Scenario.holding Scenario.report)) = Ok results /\
      List.length results = 2%nat /\
      NoDup (map name results) /\
      forall i, (1 <= i <= 2)%nat ->
        In (Expected.pageDocument Scenario.browser (Scenario.canvasOf i) i)
           results) /\
   (exists results,
      snd (Converters.pdfToImages Scenario.browser
             (Scenario.holding Scenario.report)) = Ok results /\
      List.length results = 2%nat /\
      NoDup (map name results) /\
      forall i, (1 <= i <= 2)%nat ->
        In (Expected.pageImage "jpg" (Scenario.canvasOf i) i) results)) /\
  ((exists ev e,
      Converters.splitPDF Scenario2.tornBrowser
        (Scenario.holding Scenario.report) = (ev, Throw e)) /\
   (exists ev e,
      Converters.pdfToImages Scenario2.tornBrowser
        (Scenario.holding Scenario.report) = (ev, Throw e))).
Proof.
  split.
  - apply (proj1 (one_entry_per_page_or_none Scenario.browser
                    (Scenario.holding Scenario.report) Scenario.report
                    Scenario.twoPages
                    (ex_intro _ Scenario.bytes
                       (conj eq_refl (conj eq_refl eq_refl))))
             Scenario.pageOf Scenario.canvasOf).
    intros i Hi. simpl in Hi.
    destruct i as [|[|[|i]]]; try lia; split; reflexivity.
  - apply (proj2 (one_entry_per_page_or_none Scenario2.tornBrowser
                    (Scenario.holding Scenario.report) Scenario.report
                    Scenario2.tornPages
                    (ex_intro _ Scenario.bytes
                       (conj eq_refl (conj eq_refl eq_refl))))
             2%nat).
    + simpl. lia.
    + left. exists (Err "Invalid page request"). reflexivity.
Defined.

(** C3 fails on the code: the document has two pages, the first loads
    and renders and the second does not load; [splitPDF] and
    [pdfToImages] throw after the progress of the first page and return
    no entry, not even the one made for the first page. *)
Lemma splitPDF_failing_page_counterexample :
  numPages Scenario2.tornPages = 2%nat /\
  Expected.opens Scenario2.tornBrowser (Scenario.holding Scenario.report)
    Scenario.report Scenario2.tornPages /\
  getPage Scenario2.tornPages 1 = Ok (Scenario.pageOf 1) /\
  render (Scenario.pageOf 1) 1 = Ok (Scenario.canvasOf 1) /\
  Converters.splitPDF Scenario2.tornBrowser
    (Scenario.holding Scenario.report)
  = ([ UpdateProgress (percent 1 2) ], Throw (Err "Invalid page request")) /\
  Converters.pdfToImages Scenario2.tornBrowser
    (Scenario.holding Scenario.report)
  = ([ UpdateProgress (percent 1 2) ], Throw (Err "Invalid page request")) /\
  (forall results,
     snd (Converters.splitPDF Scenario2.tornBrowser
            (Scenario.holding Scenario.report)) <> Ok results) /\
  (forall results,
     snd (Converters.pdfToImages Scenario2.tornBrowser
            (Scenario.holding Scenario.report)) <> Ok results).
Proof.
  split; [reflexivity|]. split.
  - exists Scenario.bytes. repeat split.
  - repeat split; try reflexivity; intros results H; discriminate H.
Qed.

(** C4.  For a document that opens with N pages, each of which renders,
    the list [pdfToImages] returns follows the page order: its entry at
    position i (counted from 0) is the image of page i + 1, named
    sayfa_(i+1) with the chosen format.  The loop awaits each page before
    it starts the next one, so no other order of completion exists. *)
Theorem pdfToImages_in_page_order (lib : Libs) (st : State) (f : File)
    (pdf : PDF) (pg : nat -> Page) (cv : nat -> Canvas) :
  Expected.opens lib st f pdf -> Expected.renders pdf pg cv ->
  exists results,
    snd (Converters.pdfToImages lib st) = Ok results /\
    List.length results = numPages pdf /\
    forall i, (i < numPages pdf)%nat ->
      nth_error results i
      = Some (Expected.pageImage (Converters.formatOf lib)
                (cv (S i)) (S i)).
Proof.
  intros Ho Hr. eexists.
  split; [apply (pdfToImages_run lib st f pdf pg cv Ho Hr)|].
  split; [now rewrite length_map, length_seq|].
  intros i Hi.
  exact (nth_error_map_seq
           (fun k => Expected.pageImage (Converters.formatOf lib) (cv k) k)
           (numPages pdf) i Hi).
Qed.

Lemma pdfToImages_in_page_order_witness :
  exists results,
    snd (Converters.pdfToImages Scenario.browser
           (Scenario.holding Scenario.report)) = Ok results /\
    List.length results = 2%nat /\
    forall i, (i < 2)%nat ->
      nth_error results i
      = Some (Expected.pageImage "jpg" (Scenario.canvasOf (S i)) (S i)).
Proof.
  apply (pdfToImages_in_page_order Scenario.browser
           (Scenario.holding Scenario.report) Scenario.report
           Scenario.twoPages Scenario.pageOf Scenario.canvasOf).
  - exists Scenario.bytes. repeat split.
  - intros i Hi. simpl in Hi.
    destruct i as [|[|[|i]]]; try lia; split; reflexivity.
Defined.

(** ** js/converters.js: the text of a page *)







(** C10.  The two copies of [pdfToWord] are extensionally equal: in every
    browser and for every state they emit the same progress updates and
    end the same way, with the same HTML artifact (same page headings,
    same space-joined text, same name) or the same error. *)
Theorem pdfToWord_copies_agree (lib : Libs) (st : State) :
  Part000.pdfToWord lib st = Converters.pdfToWord lib st.
Proof. reflexivity. Qed.

(** ** js/converters.js: the lines of [wordToPDF] *)

Lemma drawLines_layout (lines : list string) :
  forall (doc : list DocOp) (y : Z),
    fst (fold_left Converters.drawLine lines (doc, y))
    = doc ++ Expected.layout y lines.
Proof.
  induction lines as [|line rest IH]; intros doc y.
  - simpl. now rewrite app_nil_r.
  - cbn [fold_left Expected.layout]. unfold Converters.drawLine at 2.
    destruct (280 <? y)%Z; rewrite IH, <- !app_assoc; reflexivity.
Qed.

Lemma layout_within (lines : list string) :
  forall y, (20 <= y)%Z -> Forall Expected.withinPage (Expected.layout y lines).
Proof.
  induction lines as [|line rest IH]; intros y Hy; simpl.
  - constructor.
  - destruct (280 <? y)%Z eqn:E.
    + constructor; [exact I|]. constructor; [simpl; lia|].
      apply IH. lia.
    + apply Z.ltb_ge in E. constructor; [simpl; lia|].
      apply IH. lia.
Qed.

Lemma layout_drawn (lines : list string) :
  forall y, Expected.drawnLines (Expected.layout y lines) = lines.
Proof.
  induction lines as [|line rest IH]; intros y; simpl; [reflexivity|].
  destruct (280 <? y)%Z; simpl; now rewrite IH.
Qed.

Lemma layout_new_page (lines : list string) :
  forall y before after,
    Expected.layout y lines = before ++ AddPage :: after ->
    exists line rest, after = Text line 15 20 :: rest.
Proof.
  induction lines as [|l ls IH]; intros y before after H; simpl in H.
  - destruct before; discriminate H.
  - destruct (280 <? y)%Z.
    + destruct before as [|b before]; simpl in H.
      * injection H as H. eauto.
      * injection H as _ H. destruct before as [|b' before]; simpl in H.
        -- discriminate H.
        -- injection H as _ H. now apply IH in H.
    + destruct before as [|b before]; simpl in H.
      * discriminate H.
      * injection H as _ H. now apply IH in H.
Qed.

Lemma layout_addPages (lines : list string) :
  forall k, (k <= 38)%nat ->
    List.length
      (filter (fun op => match op with AddPage => true | _ => false end)
         (Expected.layout (20 + 7 * Z.of_nat k) lines))
    = ((List.length lines + k - 1) / 38)%nat.
Proof.
  induction lines as [|line rest IH]; intros k Hk.
  - cbn [Expected.layout filter List.length].
    rewrite Nat.div_small by lia. reflexivity.
  - cbn [Expected.layout List.length].
    destruct (280 <? 20 + 7 * Z.of_nat k)%Z eqn:E.
    + apply Z.ltb_lt in E. assert (k = 38%nat) by lia. subst k.
      cbn [filter List.length].
      change (20 + 7)%Z with (20 + 7 * Z.of_nat 1)%Z.
      rewrite (IH 1%nat) by lia.
      replace (S (List.length rest) + 38 - 1)%nat
        with (List.length rest + 1 - 1 + 1 * 38)%nat by lia.
      rewrite Nat.div_add by lia. lia.
    + apply Z.ltb_ge in E. cbn [filter].
      replace (20 + 7 * Z.of_nat k + 7)%Z
        with (20 + 7 * Z.of_nat (S k))%Z by lia.
      rewrite (IH (S k)) by lia. f_equal. lia.
Qed.

Lemma mod_38_succ (k : nat) :
  (S k mod 38 = if (k mod 38 =? 37) then 0 else S (k mod 38))%nat.
Proof.
  pose proof (Nat.div_mod_eq k 38) as E1.
  pose proof (Nat.mod_upper_bound k 38 ltac:(lia)) as B1.
  pose proof (Nat.div_mod_eq (S k) 38) as E2.
  pose proof (Nat.mod_upper_bound (S k) 38 ltac:(lia)) as B2.
  set (q1 := (k / 38)%nat) in *. set (r1 := (k mod 38)%nat) in *.
  set (q2 := (S k / 38)%nat) in *. set (r2 := (S k mod 38)%nat) in *.
  clearbody q1 r1 q2 r2.
  destruct (r1 =? 37)%nat eqn:E.
  - apply Nat.eqb_eq in E. lia.
  - apply Nat.eqb_neq in E. lia.
Qed.

Lemma runningY_step (j : nat) :
  (280 <? Expected.runningY j)%Z = ((0 <? j)%nat && (j mod 38 =? 0)%nat) /\
  (if (280 <? Expected.runningY j)%Z then 20%Z else Expected.runningY j)
  = (20 + 7 * Z.of_nat (j mod 38))%Z /\
  Expected.runningY (S j) = (20 + 7 * Z.of_nat (j mod 38) + 7)%Z.
Proof.
  assert (Hnext : Expected.runningY (S j)
                  = (20 + 7 * Z.of_nat (j mod 38) + 7)%Z)
    by (unfold Expected.runningY; lia).
  destruct j as [|k].
  - repeat split.
  - pose proof (mod_38_succ k) as Hm.
    pose proof (Nat.mod_upper_bound k 38 ltac:(lia)) as Hb.
    unfold Expected.runningY in *.
    set (r := (k mod 38)%nat) in *. set (r' := (S k mod 38)%nat) in *.
    clearbody r r'. cbn [Nat.ltb Nat.leb andb].
    destruct (r =? 37)%nat eqn:E.
    + apply Nat.eqb_eq in E. subst r r'. repeat split; try exact Hnext.
    + apply Nat.eqb_neq in E. subst r'.
      replace (280 <? 20 + 7 * Z.of_nat (r + 1))%Z with false
        by (symmetry; apply Z.ltb_ge; lia).
      repeat split; try exact Hnext. lia.
Qed.

Lemma drawLine_step (doc : list DocOp) (j : nat) (line : string) :
  Converters.drawLine (doc, Expected.runningY j) line
  = (doc ++ (if (0 <? j)%nat && (j mod 38 =? 0)%nat then [AddPage] else [])
         ++ [Text line 15 (20 + 7 * Z.of_nat (j mod 38))],
     Expected.runningY (S j)).
Proof.
  destruct (runningY_step j) as (Hb & Hy & Hn).
  unfold Converters.drawLine. rewrite <- Hb, Hn, <- Hy.
  destruct (280 <? Expected.runningY j)%Z;
    rewrite <- ?app_assoc; reflexivity.
Qed.

Lemma drawLines_pagesFrom (lines : list string) :
  forall (j : nat) (doc : list DocOp),
    fold_left Converters.drawLine lines (doc, Expected.runningY j)
    = (doc ++ Expected.pagesFrom j lines,
       Expected.runningY (j + List.length lines)).
Proof.
  induction lines as [|line rest IH]; intros j doc.
  - cbn [fold_left Expected.pagesFrom List.length].
    now rewrite app_nil_r, Nat.add_0_r.
  - cbn [fold_left Expected.pagesFrom List.length].
    rewrite drawLine_step, IH.
    replace (S j + List.length rest)%nat
      with (j + S (List.length rest))%nat by lia.
    rewrite <- !app_assoc. reflexivity.
Qed.

(** C9.  For every file that can be read, [wordToPDF] returns one
    document that draws exactly the lines of the wrapped text, in order,
    every line at x = 15 and at a y-coordinate from 20 to 280.  The
    running y-coordinate after k lines is 20 at the start and 7 below the
    last line after that; it exceeds 280 exactly when k is a positive
    multiple of 38, and exactly then a new page is started before the
    next line, which is drawn at y = 20: line j (from 0) is drawn at
    y = 20 + 7 (j mod 38), every new page is followed at once by a line
    at y = 20, and the document has 1 + (n - 1) / 38 pages for n lines. *)
Theorem wordToPDF_lines_within_page (lib : Libs) (st : State) (f : File)
    (arr : ArrayBuffer) :
  hd_error (files st) = Some f -> file_bytes f = Some arr ->
  let lines := splitTextToSize lib (Expected.textOf lib arr) 180 in
  exists ops,
    snd (Converters.wordToPDF lib st)
    = Ok [ mkArtifact (Converters.replaceDocExt (file_name f))
                      (BlobOfDoc ops) ] /\
    ops = Expected.pagesFrom 0 lines /\
    (forall k, (k <= List.length lines)%nat ->
       snd (Converters.drawLines (firstn k lines)) = Expected.runningY k) /\
    (forall j, (280 < Expected.runningY j)%Z
               <-> (0 < j)%nat /\ (j mod 38 = 0)%nat) /\
    Forall Expected.withinPage ops /\
    Expected.drawnLines ops = lines /\
    MoreConverters.pageCount ops = S ((List.length lines - 1) / 38) /\
    forall before after,
      ops = before ++ AddPage :: after ->
      exists line rest, after = Text line 15 20 :: rest.
Proof.
  intros Hf Hb lines.
  exists (Expected.layout 20 lines).
  split; [|split; [|split; [|split; [|split; [|split; [|split]]]]]].
  - unfold Converters.wordToPDF, Converters.drawLines.
    rewrite Hf. cbn [readFileAsArrayBuffer]. rewrite Hb.
    cbn [lift bind app updateProgress emit ret snd Converters.nameOf].
    rewrite drawLines_layout. reflexivity.
  - pose proof (drawLines_layout lines [] 20%Z) as H1.
    pose proof (drawLines_pagesFrom lines 0 []) as H2.
    change (Expected.runningY 0) with 20%Z in H2.
    rewrite H2 in H1. cbn [fst app] in H1. now symmetry.
  - intros k Hk. unfold Converters.drawLines.
    pose proof (drawLines_pagesFrom (firstn k lines) 0 []) as H.
    change (Expected.runningY 0) with 20%Z in H. rewrite H.
    cbn [snd Nat.add]. rewrite length_firstn. f_equal. lia.
  - intros j. destruct (runningY_step j) as (Hbreak & _ & _).
    rewrite <- Z.ltb_lt, Hbreak, andb_true_iff, Nat.ltb_lt, Nat.eqb_eq.
    reflexivity.
  - apply layout_within. lia.
  - apply layout_drawn.
  - unfold MoreConverters.pageCount. f_equal.
    change 20%Z with (20 + 7 * Z.of_nat 0)%Z.
    rewrite layout_addPages by lia. f_equal. lia.
  - apply layout_new_page.
Qed.

Lemma wordToPDF_lines_within_page_witness :
  exists ops,
    snd (Converters.wordToPDF Scenario.longBrowser
           (Scenario.holding Scenario.letter))
    = Ok [ mkArtifact "Letter.pdf" (BlobOfDoc ops) ] /\
    ops = Expected.pagesFrom 0 (Scenario.perCharacter Scenario.longText) /\
    nth_error ops 37 = Some (Text "g" 15 279) /\
    nth_error ops 38 = Some AddPage /\
    nth_error ops 39 = Some (Text "." 15 20) /\
    snd (Converters.drawLines
           (firstn 38 (Scenario.perCharacter Scenario.longText))) = 286%Z /\
    Forall Expected.withinPage ops /\
    MoreConverters.pageCount ops = 2%nat.
Proof.
  destruct (wordToPDF_lines_within_page Scenario.longBrowser
              (Scenario.holding Scenario.letter) Scenario.letter
              Scenario.bytes eq_refl eq_refl)
    as (ops & Hrun & Hops & Hy & _ & Hin & _ & Hpages & _).
  exists ops. split; [exact Hrun|]. split; [exact Hops|].
  split; [rewrite Hops; reflexivity|].
  split; [rewrite Hops; reflexivity|].
  split; [rewrite Hops; reflexivity|].
  split; [exact (Hy 38%nat ltac:(simpl; lia))|].
  split; [exact Hin | exact Hpages].
Defined.

(** ** js/converters.js: the place of an image *)

Lemma inject_Z_pos (z : Z) : (0 < z)%Z -> 0 < inject_Z z.
Proof. intros H. unfold Qlt. simpl. lia. Qed.

Lemma Qpos_neq0 (q : Q) : 0 < q -> ~ q == 0.
Proof. intros H E. rewrite E in H. now apply Qlt_irrefl in H. Qed.

Lemma placeImage_fits (pw ph : Q) (width height : Z) :
  20 < pw -> 20 < ph -> (0 < width)%Z -> (0 < height)%Z ->
  let '(x, y, iw, ih) := Converters.placeImage pw ph width height in
  iw <= pw - 20 /\ ih <= ph - 20 /\
  iw / ih == inject_Z width / inject_Z height /\
  x = (pw - iw) / 2 /\ y = (ph - ih) / 2.
Proof.
  intros Hpw Hph Hw Hh. unfold Converters.placeImage.
  assert (HW : 0 < inject_Z width) by now apply inject_Z_pos.
  assert (HH : 0 < inject_Z height) by now apply inject_Z_pos.
  assert (Ha : 0 < pw - 20) by now apply (proj1 (Qlt_minus_iff 20 pw)).
  assert (Hc : 0 < ph - 20) by now apply (proj1 (Qlt_minus_iff 20 ph)).
  pose proof (Qpos_neq0 _ HW) as HW0. pose proof (Qpos_neq0 _ HH) as HH0.
  pose proof (Qpos_neq0 _ Ha) as Ha0. pose proof (Qpos_neq0 _ Hc) as Hc0.
  destruct (Qle_bool (inject_Z height * (pw - 20) / inject_Z width) (ph - 20))
    eqn:E; cbn [negb].
  - apply Qle_bool_iff in E. repeat split.
    + apply Qle_refl.
    + exact E.
    + field. repeat split; assumption.
  - repeat split.
    + apply Qle_shift_div_r; [exact HH|].
      destruct (Qlt_le_dec ((ph - 20) * inject_Z width)
                           (inject_Z height * (pw - 20))) as [Hlt|Hle].
      * apply Qlt_le_weak.
        setoid_replace (inject_Z width * (ph - 20))
          with ((ph - 20) * inject_Z width) by ring.
        setoid_replace ((pw - 20) * inject_Z height)
          with (inject_Z height * (pw - 20)) by ring.
        exact Hlt.
      * apply Qle_shift_div_r in Hle; [|exact HW].
        apply Qle_bool_iff in Hle. congruence.
    + apply Qle_refl.
    + field. split; assumption.
Qed.

Lemma firstn_snoc {A : Type} (l : list A) :
  forall i x, nth_error l i = Some x -> firstn (S i) l = firstn i l ++ [x].
Proof.
  induction l as [|y l IH]; intros [|i] x H; simpl in H; try discriminate.
  - injection H as ->. reflexivity.
  - rewrite !firstn_cons, (IH i x H). reflexivity.
Qed.

Lemma drawnImages_app (a b : list DocOp) :
  Expected.drawnImages (a ++ b)
  = Expected.drawnImages a ++ Expected.drawnImages b.
Proof. apply flat_map_app. Qed.

(** C8, as the code has it.  In exact arithmetic (the formulas of the
    code over the rationals, before the rounding of doubles), on a page
    wider and higher than the 20 units of margin and for files that can
    be read and load as images of positive width and height,
    [imagesToPDF] returns one document that draws every input image, in
    order, and each drawing has a width of at most the page width minus
    20, a height of at most the page height minus 20, the proportions of
    the source image (iw / ih equals width / height) and the position
    ((pw - iw) / 2, (ph - ih) / 2), which centres it. *)
Theorem imagesToPDF_placement (lib : Libs) (st : State) :
  20 < pageWidth lib -> 20 < pageHeight lib ->
  (forall f b, In f (files st) -> file_bytes f = Some b ->
     exists width height,
       imageSize lib (UrlOfFile b) = Some (width, height) /\
       (0 < width)%Z /\ (0 < height)%Z) ->
  (forall f, In f (files st) -> file_bytes f <> None) ->
  exists ev ops,
    Converters.imagesToPDF lib st
    = Settled (ev, Ok [ mkArtifact "gorseller.pdf" (BlobOfDoc ops) ]) /\
    Forall (Expected.placed lib) ops /\
    map Some (Expected.drawnImages ops)
    = map (fun f => option_map UrlOfFile (file_bytes f)) (files st).
Proof.
  intros Hpw Hph Hsize Hread. unfold Converters.imagesToPDF.
  match goal with |- context [await_range 0 ?n [] ?b] =>
    destruct (await_range_ok
      (fun i doc =>
         Forall (Expected.placed lib) doc /\
         map Some (Expected.drawnImages doc)
         = map (fun f => option_map UrlOfFile (file_bytes f))
               (firstn i (files st)))
      b n 0%nat []) as (ev & doc & Hrun & Hplaced & Hdrawn)
  end.
  { split; [constructor | reflexivity]. }
  { intros i doc Hi [Hplaced Hdrawn].
    destruct (nth_error (files st) i) as [f|] eqn:Hnth;
      [|apply nth_error_None in Hnth; lia].
    pose proof (nth_error_In _ _ Hnth) as Hin.
    pose proof (Hread f Hin) as Hbytes.
    destruct (file_bytes f) as [b|] eqn:Hb; [|congruence].
    destruct (Hsize f b Hin Hb) as (width & height & Hdims & Hw & Hh).
    cbn [readFileAsDataURL]. rewrite Hb. cbn [lift await app].
    unfold Converters.loaded. rewrite Hdims. cbn [ret await app].
    pose proof (placeImage_fits (pageWidth lib) (pageHeight lib)
                  width height Hpw Hph Hw Hh) as Hfit.
    destruct (Converters.placeImage (pageWidth lib) (pageHeight lib)
                width height) as [[[x y] iw] ih].
    cbn [bind updateProgress emit ret app].
    eexists. eexists. split; [reflexivity|]. split.
    - apply Forall_app. split.
      + destruct (0 <? i)%nat; [|exact Hplaced].
        apply Forall_app. split; [exact Hplaced|].
        constructor; [exact I | constructor].
      + constructor; [|constructor].
        cbn [Expected.placed]. rewrite Hdims. exact Hfit.
    - rewrite (firstn_snoc _ _ _ Hnth), map_app, <- Hdrawn.
      rewrite drawnImages_app, map_app. cbn [map]. rewrite Hb.
      destruct (0 <? i)%nat; [|reflexivity].
      rewrite drawnImages_app, map_app. simpl. now rewrite app_nil_r. }
  eexists. exists doc. rewrite Hrun. cbn [await ret].
  split; [reflexivity|]. split; [exact Hplaced|].
  rewrite Hdrawn. cbn [Nat.add]. now rewrite firstn_all.
Qed.

Lemma imagesToPDF_placement_witness :
  exists ev ops,
    Converters.imagesToPDF Scenario.browser
      (mkState (Some "jpg-to-pdf") [Scenario.photo; Scenario.photo])
    = Settled (ev, Ok [ mkArtifact "gorseller.pdf" (BlobOfDoc ops) ]) /\
    Forall (Expected.placed Scenario.browser) ops /\
    map Some (Expected.drawnImages ops)
    = [ Some (UrlOfFile Scenario.bytes); Some (UrlOfFile Scenario.bytes) ].
Proof.
  apply (imagesToPDF_placement Scenario.browser
           (mkState (Some "jpg-to-pdf") [Scenario.photo; Scenario.photo])).
  - reflexivity.
  - reflexivity.
  - intros f b _ _. exists 800%Z, 600%Z. repeat split.
  - intros f [H|[H|[]]]; subst f; discriminate.
Defined.

(** C8 fails on the code, which computes in doubles: for an image of 1366
    by 768 on a page of 210 by 297 the width is 190 and the height the
    double nearest to 190 * 768 / 1366; the quotient iw / ih of the two is
    not the quotient 1366 / 768, neither as the code's division computes
    them (they differ in the last bit) nor as exact numbers. *)
Lemma imagesToPDF_doubles_counterexample :
  let '(_, _, iw, ih) :=
    Doubles.placeImage (Doubles.ofZ 210) (Doubles.ofZ 297) 1366 768 in
  PrimFloat.eqb (PrimFloat.div iw ih)
                (PrimFloat.div (Doubles.ofZ 1366) (Doubles.ofZ 768))
  = false /\
  exists a b,
    Doubles.exact iw = Some a /\ Doubles.exact ih = Some b /\
    a == 190 /\ ~ a / b == 1366 # 768.
Proof.
  vm_compute. split; [reflexivity|].
  eexists. eexists. split; [reflexivity|]. split; [reflexivity|].
  vm_compute. split; [reflexivity | intros H; discriminate H].
Qed.

(** ** The Layout Fitter *)










(** The fitter at work on the box of the example: a short text keeps the
    original size, a text four times as long is shrunk, and a text that
    cannot fit ends at the floor. *)
Example fit_examples :
  Fitter.fit Fitter.fixedPitch (Fitter.mkConfig 1 60) (Fitter.mkBox 100 20)
    12 "Hello" = Fitter.mkPlan 12 true /\
  Fitter.fit Fitter.fixedPitch (Fitter.mkConfig 1 60) (Fitter.mkBox 100 20)
    12 "Hello, wide world!!!" = Fitter.mkPlan 8 true /\
  Fitter.fit Fitter.fixedPitch (Fitter.mkConfig 1 60) (Fitter.mkBox 100 20)
    12 "A text that is far too long for this box" = Fitter.mkPlan 7 false.
Proof. repeat split. Qed.

(** * Further properties of the code *)

(** ** js/converters.js: [mergePDFs] and [compressPDF] *)

Lemma pagesDoc_snoc (l : list DocOp) (x : DocOp) :
  MoreConverters.pagesDoc (l ++ [x])
  = match l with
    | [] => [x]
    | _ :: _ => MoreConverters.pagesDoc l ++ [AddPage; x]
    end.
Proof.
  destruct l as [|y l]; [reflexivity|].
  simpl. rewrite flat_map_app. reflexivity.
Qed.

Lemma merged_snoc (lib : Libs) (cs : list Canvas) (c : Canvas) :
  MoreConverters.merged lib (cs ++ [c])
  = ((if negb (snd (MoreConverters.merged lib cs))
      then fst (MoreConverters.merged lib cs) ++ [AddPage]
      else fst (MoreConverters.merged lib cs))
     ++ [MoreConverters.pageJpeg lib (8 # 10) c],
     false).
Proof.
  unfold MoreConverters.merged. rewrite map_app. cbn [map fst snd].
  rewrite pagesDoc_snoc. destruct cs as [|a cs]; [reflexivity|].
  cbn [map negb]. rewrite <- app_assoc. reflexivity.
Qed.

Lemma allCanvases_S (pdfs : nat -> PDF) (cv : nat -> nat -> Canvas)
    (k : nat) :
  MoreConverters.allCanvases pdfs cv (S k)
  = MoreConverters.allCanvases pdfs cv k
    ++ map (cv k) (seq 1 (numPages (pdfs k))).
Proof.
  unfold MoreConverters.allCanvases.
  rewrite seq_S, flat_map_app. simpl. now rewrite app_nil_r.
Qed.

Lemma mergePDFs_run (lib : Libs) (st : State) (pdfs : nat -> PDF)
    (pg : nat -> nat -> Page) (cv : nat -> nat -> Canvas) :
  MoreConverters.allRender lib st pdfs pg cv ->
  snd (MoreConverters.mergePDFs lib st)
  = Ok [ mkArtifact "birlesik.pdf"
           (BlobOfDoc
              (MoreConverters.pagesDoc
                 (map (MoreConverters.pageJpeg lib (8 # 10))
                    (MoreConverters.allCanvases pdfs cv
                       (List.length (files st)))))) ].
Proof.
  intros Hall. unfold MoreConverters.mergePDFs.
  match goal with |- context [for_range 0 ?n ?init ?b] =>
    destruct (for_range_ok
      (fun k s => s = MoreConverters.merged lib
                        (MoreConverters.allCanvases pdfs cv k))
      b n 0%nat init eq_refl) as (ev & r & Hrun & Hr)
  end.
  { intros k s Hk Hs. destruct s as [doc first].
    destruct (Hall k ltac:(lia)) as [(f & arr & Hnth & Hb & Hd) Hren].
    rewrite Hnth. cbn [readFileAsArrayBuffer]. rewrite Hb.
    cbn [lift bind app]. rewrite Hd. cbn [bind app].
    match goal with |- context [for_range 1 ?n ?init ?b] =>
      destruct (for_range_ok
        (fun i s => s = MoreConverters.merged lib
                          (MoreConverters.allCanvases pdfs cv k
                           ++ map (cv k) (seq 1 (i - 1))))
        b n 1%nat init) as (ev' & r' & Hrun' & Hr')
    end.
    { cbn [Nat.sub seq map]. now rewrite app_nil_r. }
    { intros i [doc' first'] Hi Hs'.
      destruct (Hren i ltac:(lia)) as [Hp Hc].
      rewrite Hp. cbn [lift bind app]. rewrite Hc. cbn [lift bind app ret].
      eexists. eexists. split; [reflexivity|].
      replace (S i - 1)%nat with i by lia.
      rewrite (seq_snoc i) by lia. rewrite map_app, app_assoc.
      cbn [map]. rewrite merged_snoc, <- Hs'. reflexivity. }
    rewrite Hrun'. cbn [bind app updateProgress emit ret].
    eexists. eexists. split; [reflexivity|].
    rewrite Hr', allCanvases_S.
    replace (1 + numPages (pdfs k) - 1)%nat with (numPages (pdfs k)) by lia.
    reflexivity. }
  rewrite Hrun. cbn [bind ret snd app]. rewrite Hr. reflexivity.
Qed.

Lemma pagesDoc_pageCount (lib : Libs) (q : Q) (cs : list Canvas) :
  MoreConverters.pageCount
    (MoreConverters.pagesDoc (map (MoreConverters.pageJpeg lib q) cs))
  = Nat.max 1 (List.length cs).
Proof.
  destruct cs as [|c cs]; [reflexivity|].
  unfold MoreConverters.pageCount. cbn [map MoreConverters.pagesDoc filter
    MoreConverters.pageJpeg List.length].
  f_equal. induction cs as [|d cs IH]; [reflexivity|].
  cbn [map flat_map app filter MoreConverters.pageJpeg List.length].
  now rewrite IH.
Qed.

Lemma pagesDoc_images (lib : Libs) (q : Q) (cs : list Canvas) :
  Expected.drawnImages
    (MoreConverters.pagesDoc (map (MoreConverters.pageJpeg lib q) cs))
  = map (fun c => UrlOfCanvas c "image/jpeg" q) cs.
Proof.
  destruct cs as [|c cs]; [reflexivity|].
  cbn [map MoreConverters.pagesDoc]. unfold Expected.drawnImages.
  cbn [flat_map MoreConverters.pageJpeg app]. f_equal.
  induction cs as [|d cs IH]; [reflexivity|].
  cbn [map flat_map app MoreConverters.pageJpeg]. now rewrite IH.
Qed.

(** X1.  [mergePDFs], for files that all open and pages that all render:
    the merged document draws one image per page of every file, file
    after file and page after page, with a new page before every image but
    the first, so it has as many pages as the inputs together (one blank
    page when they have none). *)
Theorem mergePDFs_pages (lib : Libs) (st : State) (pdfs : nat -> PDF)
    (pg : nat -> nat -> Page) (cv : nat -> nat -> Canvas) :
  MoreConverters.allRender lib st pdfs pg cv ->
  let canvases :=
    MoreConverters.allCanvases pdfs cv (List.length (files st)) in
  exists ops,
    snd (MoreConverters.mergePDFs lib st)
    = Ok [ mkArtifact "birlesik.pdf" (BlobOfDoc ops) ] /\
    ops = MoreConverters.pagesDoc
            (map (MoreConverters.pageJpeg lib (8 # 10)) canvases) /\
    Expected.drawnImages ops
    = map (fun c => UrlOfCanvas c "image/jpeg" (8 # 10)) canvases /\
    MoreConverters.pageCount ops = Nat.max 1 (List.length canvases).
Proof.
  intros Hall canvases. eexists.
  split; [apply (mergePDFs_run lib st pdfs pg cv Hall)|].
  split; [reflexivity|]. split.
  - apply pagesDoc_images.
  - apply pagesDoc_pageCount.
Qed.

Lemma mergePDFs_pages_witness :
  exists ops,
    snd (MoreConverters.mergePDFs Scenario.browser
           (Scenario2.merging [Scenario.report; Scenario.scan]))
    = Ok [ mkArtifact "birlesik.pdf" (BlobOfDoc ops) ] /\
    ops = MoreConverters.pagesDoc
            (map (MoreConverters.pageJpeg Scenario.browser (8 # 10))
               [ Scenario.canvasOf 1; Scenario.canvasOf 2;
                 Scenario.canvasOf 1; Scenario.canvasOf 2 ]) /\
    Expected.drawnImages ops
    = map (fun c => UrlOfCanvas c "image/jpeg" (8 # 10))
        [ Scenario.canvasOf 1; Scenario.canvasOf 2;
          Scenario.canvasOf 1; Scenario.canvasOf 2 ] /\
    MoreConverters.pageCount ops = 4%nat.
Proof.
  apply (mergePDFs_pages Scenario.browser
           (Scenario2.merging [Scenario.report; Scenario.scan])
           (fun _ => Scenario.twoPages) (fun _ => Scenario.pageOf)
           (fun _ => Scenario.canvasOf)).
  intros k Hk. simpl in Hk. split.
  - destruct k as [|[|k]]; try lia.
    + exists Scenario.report, Scenario.bytes. repeat split.
    + exists Scenario.scan, Scenario.bytes. repeat split.
  - intros i Hi. simpl in Hi.
    destruct i as [|[|[|i]]]; try lia; split; reflexivity.
Defined.




(** ** js/converters.js: all or nothing *)

Lemma unreadable_index (l : list File) (f : File) :
  In f l -> file_bytes f = None ->
  exists k,
    (k < List.length l)%nat /\
    readFileAsArrayBuffer (nth_error l k) = Throw (Err "Dosya okunamadı") /\
    readFileAsDataURL (nth_error l k) = Throw (Err "Dosya okunamadı").
Proof.
  intros Hin Hb. destruct (In_nth_error _ _ Hin) as [k Hk].
  exists k. split.
  - apply nth_error_Some. congruence.
  - rewrite Hk. simpl. rewrite Hb. split; reflexivity.
Qed.

Lemma await_each_nothing {A S : Type} (body : S -> A -> Run S) (x : A)
    (l : list A) :
  In x l ->
  (forall s, MoreConverters.returnsNothing (body s x)) ->
  forall s0, MoreConverters.returnsNothing (await_each body s0 l).
Proof.
  intros Hin Hx. induction l as [|y l IH]; intros s0; [destruct Hin|].
  cbn [await_each]. unfold await.
  destruct Hin as [->|Hin].
  - pose proof (Hx s0) as H.
    destruct (body s0 x) as [[ev [s1|e]]|ev]; cbn in H |- *.
    + destruct H as (ev' & e' & H). discriminate H.
    + unfold MoreConverters.throws. eauto.
    + exact I.
  - destruct (body s0 y) as [[ev [s1|e]]|ev]; cbn.
    + pose proof (IH Hin s1) as H.
      destruct (await_each body s1 l) as [[ev' r]|ev']; cbn in H |- *.
      * destruct H as (ev2 & e2 & H). injection H as _ ->.
        unfold MoreConverters.throws. eauto.
      * exact I.
    + unfold MoreConverters.throws. eauto.
    + exact I.
Qed.

Lemma await_each_throw {A S : Type} (body : S -> A -> Run S) (x : A)
    (l : list A) :
  In x l ->
  (forall s y, In y l -> exists m, body s y = Settled m) ->
  (forall s, exists ev e, body s x = Settled (ev, Throw e)) ->
  forall s0, exists ev e, await_each body s0 l = Settled (ev, Throw e).
Proof.
  intros Hin Hall Hx. induction l as [|y l IH]; intros s0; [destruct Hin|].
  cbn [await_each]. unfold await.
  destruct Hin as [->|Hin].
  - destruct (Hx s0) as (ev & e & H). rewrite H. eauto.
  - destruct (Hall s0 y ltac:(now left)) as ([ev [s1|e]] & H); rewrite H;
      [|eauto].
    destruct (IH Hin ltac:(intros s z Hz; apply Hall; now right) s1)
      as (ev' & e' & H').
    rewrite H'. eauto.
Qed.

(** X3.  When one of the selected files cannot be read, [mergePDFs] ends
    by throwing and [imagesToPDF] returns nothing: no document comes
    back, not even one of the files and pages before the unreadable one.
    [imagesToPDF] ends by throwing when every file that can be read loads
    as an image; when an earlier file does not, it may wait for that
    image for ever instead. *)
Theorem unreadable_file_fails_all (lib : Libs) (st : State) (f : File) :
  In f (files st) -> file_bytes f = None ->
  MoreConverters.throws (MoreConverters.mergePDFs lib st) /\
  MoreConverters.returnsNothing (Converters.imagesToPDF lib st) /\
  (MoreConverters.imagesLoad lib st ->
   exists ev e, Converters.imagesToPDF lib st = Settled (ev, Throw e)).
Proof.
  intros Hin Hb.
  destruct (unreadable_index _ _ Hin Hb) as (k & Hk & Ha & Hu).
  split; [|split].
  - unfold MoreConverters.mergePDFs. apply bind_throw.
    apply (for_range_throw _ 0 _ k); [lia|].
    intros [doc first]. rewrite Ha. simpl. eauto.
  - unfold Converters.imagesToPDF, await_range.
    match goal with |- context [await_each ?b ?s0 ?l] =>
      pose proof (await_each_nothing b k l ltac:(apply in_seq; lia)) as H
    end.
    match type of H with ?P -> _ =>
      assert (Hbody : P)
        by (intros doc; rewrite Hu; cbn;
            unfold MoreConverters.throws; eauto)
    end.
    specialize (H Hbody []).
    unfold await at 1.
    match goal with |- context [await_each ?b ?s0 ?l] =>
      destruct (await_each b s0 l) as [[ev [doc|e]]|ev]
    end; cbn in H |- *.
    + destruct H as (ev' & e' & H). discriminate H.
    + unfold MoreConverters.throws. eauto.
    + exact I.
  - intros Hload. unfold Converters.imagesToPDF, await_range.
    match goal with |- context [await_each ?b ?init ?l] =>
      assert (H : exists ev e, await_each b init l = Settled (ev, Throw e))
    end.
    { apply (await_each_throw _ k); [apply in_seq; lia | |].
      - intros doc i Hi. apply in_seq in Hi.
        destruct (nth_error (files st) i) as [g|] eqn:Hnth;
          [|apply nth_error_None in Hnth; lia].
        cbn [readFileAsDataURL].
        destruct (file_bytes g) as [b|] eqn:Hg.
        + pose proof (Hload g b (nth_error_In _ _ Hnth) Hg) as Himg.
          cbn [lift await app]. unfold Converters.loaded.
          destruct (imageSize lib (UrlOfFile b)) as [[w h]|]; [|congruence].
          cbn [ret await app].
          destruct (Converters.placeImage _ _ w h) as [[[x y] iw] ih].
          eexists. reflexivity.
        + eexists. reflexivity.
      - intros doc. rewrite Hu. cbn. eauto. }
    destruct H as (ev & e & H). rewrite H. cbn [await]. eauto.
Qed.

Lemma unreadable_file_fails_all_witness :
  MoreConverters.throws
    (MoreConverters.mergePDFs Scenario.browser
       (Scenario2.merging [Scenario.report; Scenario2.unreadable])) /\
  MoreConverters.returnsNothing
    (Converters.imagesToPDF Scenario.browser
       (Scenario2.merging [Scenario.report; Scenario2.unreadable])) /\
  exists ev e,
    Converters.imagesToPDF Scenario.browser
      (Scenario2.merging [Scenario.report; Scenario2.unreadable])
    = Settled (ev, Throw e).
Proof.
  destruct (unreadable_file_fails_all Scenario.browser
              (Scenario2.merging [Scenario.report; Scenario2.unreadable])
              Scenario2.unreadable)
    as (Hmerge & Hnothing & Hthrows).
  - simpl. right. left. reflexivity.
  - reflexivity.
  - split; [exact Hmerge|]. split; [exact Hnothing|].
    apply Hthrows. intros g b _ _. discriminate.
Defined.

(** X4.  When the document opens and one of its pages does not load or
    does not render, [pdfToImages], [splitPDF] and [compressPDF] end by
    throwing: the entries made for the pages before it are not
    returned. *)
Theorem failing_page_fails_all (lib : Libs) (st : State) (f : File)
    (pdf : PDF) (i : nat) :
  Expected.opens lib st f pdf ->
  (1 <= i <= numPages pdf)%nat -> MoreConverters.pageFails pdf i ->
  MoreConverters.throws (Converters.pdfToImages lib st) /\
  MoreConverters.throws (Converters.splitPDF lib st) /\
  MoreConverters.throws (MoreConverters.compressPDF lib st).
Proof.
  intros (arr & Hf & Hb & Hd) Hi Hfail.
  assert (Hread : readFileAsArrayBuffer (hd_error (files st)) = Ok arr)
    by (rewrite Hf; simpl; now rewrite Hb).
  unfold MoreConverters.throws. repeat split.
  - unfold Converters.pdfToImages.
    rewrite Hread, bind_lift_ok, Hd, bind_lift_ok. apply bind_throw.
    apply (for_range_throw _ 1 _ i); [lia|].
    intros rs. apply (pageFails_body pdf i _ Hfail).
  - unfold Converters.splitPDF.
    rewrite Hread, bind_lift_ok, Hd, bind_lift_ok. apply bind_throw.
    apply (for_range_throw _ 1 _ i); [lia|].
    intros rs. apply (pageFails_body pdf i _ Hfail).
  - unfold MoreConverters.compressPDF.
    rewrite Hread, bind_lift_ok, Hd, bind_lift_ok. apply bind_throw.
    apply (for_range_throw _ 1 _ i); [lia|].
    intros doc. apply (pageFails_body pdf i _ Hfail).
Qed.

Lemma failing_page_fails_all_witness :
  MoreConverters.throws
    (Converters.pdfToImages Scenario2.tornBrowser
       (Scenario.holding Scenario.report)) /\
  MoreConverters.throws
    (Converters.splitPDF Scenario2.tornBrowser
       (Scenario.holding Scenario.report)) /\
  MoreConverters.throws
    (MoreConverters.compressPDF Scenario2.tornBrowser
       (Scenario.holding Scenario.report)).
Proof.
  apply (failing_page_fails_all Scenario2.tornBrowser
           (Scenario.holding Scenario.report) Scenario.report
           Scenario2.tornPages 2).
  - exists Scenario.bytes. repeat split.
  - simpl. lia.
  - left. exists (Err "Invalid page request"). reflexivity.
Defined.

(** ** js/converters.js: the name and the pages of [wordToPDF] *)

Lemma replaceDocExt_eq (n : string) :
  Converters.replaceDocExt n
  = if String.eqb (Converters.lowerAll n) ".doc"
       || String.eqb (Converters.lowerAll n) ".docx"
    then ".pdf"
    else match n with
         | EmptyString => EmptyString
         | String c n' => String c (Converters.replaceDocExt n')
         end.
Proof. destruct n; reflexivity. Qed.

Lemma lowerAll_length (s : string) :
  String.length (Converters.lowerAll s) = String.length s.
Proof. induction s as [|c s IH]; simpl; [reflexivity | now rewrite IH]. Qed.

Lemma lowerAll_app (a b : string) :
  Converters.lowerAll (a ++ b)
  = (Converters.lowerAll a ++ Converters.lowerAll b)%string.
Proof. induction a as [|c a IH]; simpl; [reflexivity | now rewrite IH]. Qed.

Lemma replaceDocExt_suffix (base ext : string) :
  Converters.lowerAll ext = ".doc" \/ Converters.lowerAll ext = ".docx" ->
  Converters.replaceDocExt (base ++ ext) = (base ++ ".pdf")%string.
Proof.
  intros Hext. induction base as [|c base IH].
  - cbn [append]. rewrite replaceDocExt_eq.
    destruct Hext as [-> | ->]; reflexivity.
  - change (String c base ++ ext)%string with (String c (base ++ ext)).
    rewrite replaceDocExt_eq, IH.
    replace (String.eqb (Converters.lowerAll (String c (base ++ ext))) ".doc"
             || String.eqb (Converters.lowerAll (String c (base ++ ext)))
                  ".docx") with false; [reflexivity|].
    symmetry. apply orb_false_iff.
    assert (Hlen : (4 <= String.length ext)%nat)
      by (rewrite <- lowerAll_length; destruct Hext as [-> | ->];
          simpl; lia).
    split; apply String.eqb_neq; intros E.
    + apply (f_equal String.length) in E.
      rewrite lowerAll_length in E. simpl in E.
      rewrite length_append in E. lia.
    + pose proof (f_equal String.length E) as El.
      rewrite lowerAll_length in El. simpl in El.
      rewrite length_append in El.
      destruct base as [|d base]; [|simpl in El; lia].
      cbn [append Converters.lowerAll] in E.
      destruct Hext as [Hx | Hx]; rewrite Hx in E; discriminate E.
Qed.

Lemma replaceDocExt_other (n : string) :
  JsString.endsWith (Converters.lowerAll n) ".doc" = false ->
  JsString.endsWith (Converters.lowerAll n) ".docx" = false ->
  Converters.replaceDocExt n = n.
Proof.
  induction n as [|c n IH]; intros H1 H2; [reflexivity|].
  rewrite replaceDocExt_eq.
  cbn [Converters.lowerAll JsString.endsWith] in H1, H2.
  apply orb_false_iff in H1. apply orb_false_iff in H2.
  destruct H1 as [E1 T1]. destruct H2 as [E2 T2].
  cbn [Converters.lowerAll]. rewrite E1, E2. cbn [orb].
  f_equal. now apply IH.
Qed.

(** X5.  The name [wordToPDF] gives its result: an input name that ends
    in .doc or .docx, in any mix of upper and lower case, has that ending
    replaced by .pdf; an input name with no such ending is kept as it is,
    so the PDF made from notes.txt is named notes.txt. *)
Theorem replaceDocExt_names :
  (forall base ext,
     Converters.lowerAll ext = ".doc" \/ Converters.lowerAll ext = ".docx" ->
     Converters.replaceDocExt (base ++ ext) = (base ++ ".pdf")%string) /\
  (forall n,
     JsString.endsWith (Converters.lowerAll n) ".doc" = false ->
     JsString.endsWith (Converters.lowerAll n) ".docx" = false ->
     Converters.replaceDocExt n = n).
Proof.
  split; [exact replaceDocExt_suffix | exact replaceDocExt_other].
Qed.

Lemma replaceDocExt_names_witness :
  Converters.replaceDocExt ("Annual.Report" ++ ".DocX")
  = ("Annual.Report" ++ ".pdf")%string /\
  Converters.replaceDocExt "notes.txt" = "notes.txt".
Proof.
  split.
  - apply (proj1 replaceDocExt_names "Annual.Report" ".DocX").
    right. reflexivity.
  - apply (proj2 replaceDocExt_names "notes.txt"); reflexivity.
Defined.



(** ** js/converters.js: more on the place of an image *)

(** X7.  In exact arithmetic, on a page wider and higher than the 20 units
    of margin and for an image of positive width and height, the image is
    drawn as large as the margins allow: its width is the page width minus
    20 or its height is the page height minus 20, and it keeps a margin of
    at least 10 on every side (the left and right margins are equal, and
    so are the top and bottom ones). *)
Theorem placeImage_fills_page (pw ph : Q) (width height : Z) :
  20 < pw -> 20 < ph -> (0 < width)%Z -> (0 < height)%Z ->
  let '(x, y, iw, ih) := Converters.placeImage pw ph width height in
  (iw = pw - 20 \/ ih = ph - 20) /\
  10 <= x /\ 10 <= y /\
  x + iw + x == pw /\ y + ih + y == ph.
Proof.
  intros Hpw Hph Hw Hh.
  pose proof (placeImage_fits pw ph width height Hpw Hph Hw Hh) as Hfit.
  unfold Converters.placeImage in *.
  destruct (negb (Qle_bool (inject_Z height * (pw - 20) / inject_Z width)
                           (ph - 20))).
  - destruct Hfit as (Hiw & Hih & _ & _ & _).
    set (iw := inject_Z width * (ph - 20) / inject_Z height) in *.
    clearbody iw. split; [right; reflexivity|].
    repeat split;
      try (apply Qle_shift_div_l; [reflexivity | lra]); field.
  - destruct Hfit as (Hiw & Hih & _ & _ & _).
    set (ih := inject_Z height * (pw - 20) / inject_Z width) in *.
    clearbody ih. split; [left; reflexivity|].
    repeat split;
      try (apply Qle_shift_div_l; [reflexivity | lra]); field.
Qed.

Lemma placeImage_fills_page_witness :
  let '(x, y, iw, ih) := Converters.placeImage 210 297 800 600 in
  (iw = 210 - 20 \/ ih = 297 - 20) /\
  10 <= x /\ 10 <= y /\
  x + iw + x == 210 /\ y + ih + y == 297.
Proof.
  apply (placeImage_fills_page 210 297 800 600); reflexivity.
Defined.

(** X8.  In exact arithmetic, the size and position of an image depend
    only on its proportions: for positive k, an image of k times the width
    and k times the height is drawn exactly where and as large as the
    image itself. *)
Theorem placeImage_proportions (pw ph : Q) (width height k : Z) :
  (0 < width)%Z -> (0 < height)%Z -> (0 < k)%Z ->
  let '(x1, y1, iw1, ih1) :=
    Converters.placeImage pw ph (k * width) (k * height) in
  let '(x2, y2, iw2, ih2) := Converters.placeImage pw ph width height in
  x1 == x2 /\ y1 == y2 /\ iw1 == iw2 /\ ih1 == ih2.
Proof.
  intros Hw Hh Hk. unfold Converters.placeImage.
  pose proof (Qpos_neq0 _ (inject_Z_pos _ Hw)) as HW0.
  pose proof (Qpos_neq0 _ (inject_Z_pos _ Hh)) as HH0.
  pose proof (Qpos_neq0 _ (inject_Z_pos _ Hk)) as HK0.
  assert (E : inject_Z (k * height) * (pw - 20) / inject_Z (k * width)
              == inject_Z height * (pw - 20) / inject_Z width).
  { rewrite !inject_Z_mult. field. split; assumption. }
  assert (Eb : Qle_bool (inject_Z (k * height) * (pw - 20)
                         / inject_Z (k * width)) (ph - 20)
               = Qle_bool (inject_Z height * (pw - 20) / inject_Z width)
                          (ph - 20)).
  { destruct (Qle_bool (inject_Z height * (pw - 20) / inject_Z width)
                       (ph - 20)) eqn:B.
    - apply Qle_bool_iff. apply Qle_bool_iff in B. now rewrite E.
    - apply not_true_is_false. intros B'. apply Qle_bool_iff in B'.
      rewrite E in B'. apply Qle_bool_iff in B'. congruence. }
  rewrite Eb.
  destruct (negb (Qle_bool (inject_Z height * (pw - 20) / inject_Z width)
                           (ph - 20))).
  - assert (E' : inject_Z (k * width) * (ph - 20) / inject_Z (k * height)
                 == inject_Z width * (ph - 20) / inject_Z height).
    { rewrite !inject_Z_mult. field. split; assumption. }
    repeat split; try reflexivity; now rewrite E'.
  - repeat split; try reflexivity; now rewrite E.
Qed.

Lemma placeImage_proportions_witness :
  let '(x1, y1, iw1, ih1) := Converters.placeImage 210 297 (3 * 4) (3 * 3) in
  let '(x2, y2, iw2, ih2) := Converters.placeImage 210 297 4 3 in
  x1 == x2 /\ y1 == y2 /\ iw1 == iw2 /\ ih1 == ih2.
Proof.
  apply (placeImage_proportions 210 297 4 3 3); reflexivity.
Defined.

(** ** js/processing.js: [formatFileSize] *)

Lemma tenths_spec (num den : N) :
  (0 < den)%N ->
  (2 * den * Display.tenths num den <= 20 * num + den
   < 2 * den * Display.tenths num den + 2 * den)%N.
Proof.
  intros Hd. unfold Display.tenths.
  pose proof (N.div_mod (20 * num + den) (2 * den) ltac:(lia)) as E.
  pose proof (N.mod_lt (20 * num + den) (2 * den) ltac:(lia)) as L.
  set (q := ((20 * num + den) / (2 * den))%N) in *.
  set (r := ((20 * num + den) mod (2 * den))%N) in *.
  nia.
Qed.

(** X9.  [formatFileSize] picks the unit by the size and rounds to the
    nearest tenth: below 1024 bytes it shows the number of bytes; from
    1024 bytes up to 1 MiB it shows n/10 KB and from 1 MiB on n/10 MB,
    where n/10 differs from the true quotient by at most 0.05 (a tie is
    rounded up) and n is at least 10, so that the number shown is never
    below 1.0. *)
Theorem formatFileSize_rounds (bytes : N) :
  (bytes < 2 ^ 53)%N ->
  ((bytes < 1024)%N ->
   Display.formatFileSize bytes = (Display.ofN bytes ++ " B")%string) /\
  ((1024 <= bytes < 1024 * 1024)%N ->
   exists n,
     Display.formatFileSize bytes
     = ((Display.ofN (n / 10) ++ "." ++ Display.ofN (n mod 10)) ++ " KB")%string
     /\ (10 <= n <= 10240)%N
     /\ (2048 * n <= 20 * bytes + 1024 < 2048 * n + 2048)%N) /\
  ((1024 * 1024 <= bytes)%N ->
   exists n,
     Display.formatFileSize bytes
     = ((Display.ofN (n / 10) ++ "." ++ Display.ofN (n mod 10)) ++ " MB")%string
     /\ (10 <= n)%N
     /\ (2097152 * n <= 20 * bytes + 1048576 < 2097152 * n + 2097152)%N).
Proof.
  intros _. unfold Display.formatFileSize. split; [|split].
  - intros H. apply N.ltb_lt in H. now rewrite H.
  - intros [H1 H2].
    replace (bytes <? 1024)%N with false
      by (symmetry; apply N.ltb_ge; exact H1).
    apply N.ltb_lt in H2. rewrite H2.
    exists (Display.tenths bytes 1024). split; [reflexivity|].
    pose proof (tenths_spec bytes 1024 ltac:(lia)) as T.
    apply N.ltb_lt in H2. lia.
  - intros H.
    replace (bytes <? 1024)%N with false
      by (symmetry; apply N.ltb_ge; lia).
    replace (bytes <? 1024 * 1024)%N with false
      by (symmetry; apply N.ltb_ge; exact H).
    exists (Display.tenths bytes (1024 * 1024)). split; [reflexivity|].
    pose proof (tenths_spec bytes (1024 * 1024) ltac:(lia)) as T.
    lia.
Qed.

Lemma formatFileSize_rounds_witness :
  exists n,
    Display.formatFileSize 1536
    = ((Display.ofN (n / 10) ++ "." ++ Display.ofN (n mod 10)) ++ " KB")%string
    /\ (10 <= n <= 10240)%N
    /\ (2048 * n <= 20 * 1536 + 1024 < 2048 * n + 2048)%N.
Proof.
  apply (proj1 (proj2 (formatFileSize_rounds 1536 eq_refl))).
  split; [discriminate | reflexivity].
Defined.

(** X10.  A size from 1048525 bytes up to one byte below 1 MiB is shown
    as '1024.0 KB': the unit is chosen before the rounding, so the
    kilobyte display can reach 1024.0 instead of turning to '1.0 MB'. *)
Theorem formatFileSize_below_one_MB (bytes : N) :
  (1048525 <= bytes < 1048576)%N ->
  Display.formatFileSize bytes = "1024.0 KB".
Proof.
  intros [H1 H2]. unfold Display.formatFileSize.
  replace (bytes <? 1024)%N with false by (symmetry; apply N.ltb_ge; lia).
  replace (bytes <? 1024 * 1024)%N with true
    by (symmetry; apply N.ltb_lt; lia).
  unfold Display.toFixed1.
  pose proof (tenths_spec bytes 1024 ltac:(lia)) as T.
  replace (Display.tenths bytes 1024) with 10240%N by lia.
  reflexivity.
Qed.

Lemma formatFileSize_below_one_MB_witness :
  Display.formatFileSize 1048575 = "1024.0 KB".
Proof.
  apply (formatFileSize_below_one_MB 1048575). split.
  - discriminate.
  - reflexivity.
Defined.

(** ** js/processing.js: [updateProgress] *)

Ltac split_thresholds :=
  repeat match goal with
         | |- context [Qle_bool ?c ?x] =>
             let E := fresh "E" in
             destruct (Qle_bool c x) eqn:E; cbn [negb]
         end.

Ltac thresholds_to_props :=
  repeat match goal with
         | E : Qle_bool _ _ = true |- _ => apply Qle_bool_iff in E
         | E : Qle_bool ?c ?x = false |- _ =>
             assert (x < c)
               by (apply Qnot_le_lt; intros L; apply Qle_bool_iff in L;
                   congruence);
             clear E
         end.

(** X11.  [updateProgress] never moves backwards as the progress grows
    from 0 on: a status line that is shown at two values of the progress
    is shown at every value between them; the bar is as wide as the
    progress up to 100 percent and 100 percent wide above, so that when
    the progress goes from p to a larger q (p not negative) the bar is at
    least as wide after the second update as after the first, whatever
    its width was before.  A negative progress leaves the bar as it
    was. *)
Theorem updateProgress_monotone (w p q r : Q) :
  0 <= p -> p <= q -> q <= r ->
  (Display.statusOf p = Display.statusOf r ->
   Display.statusOf q = Display.statusOf p) /\
  (p <= 100 -> Display.barWidth w p = p) /\
  (100 < p -> Display.barWidth w p = 100) /\
  Display.barWidth w p <= Display.barWidth (Display.barWidth w p) q /\
  Display.barWidth (Display.barWidth w p) q <= 100 /\
  (forall n, n < 0 -> Display.barWidth w n = w).
Proof.
  intros H0 Hpq Hqr. split; [|split; [|split; [|split; [|split]]]].
  - unfold Display.statusOf. split_thresholds; intros H;
      try reflexivity; try discriminate H;
      thresholds_to_props; lra.
  - intros H. unfold Display.barWidth.
    split_thresholds; thresholds_to_props; try reflexivity; lra.
  - intros H. unfold Display.barWidth.
    split_thresholds; thresholds_to_props; try reflexivity; lra.
  - unfold Display.barWidth. split_thresholds; thresholds_to_props; lra.
  - unfold Display.barWidth. split_thresholds; thresholds_to_props; lra.
  - intros n Hn. unfold Display.barWidth.
    split_thresholds; thresholds_to_props; try reflexivity; lra.
Qed.

Lemma updateProgress_monotone_witness :
  (Display.statusOf 40 = Display.statusOf 65 ->
   Display.statusOf 50 = Display.statusOf 40) /\
  (40 <= 100 -> Display.barWidth 0 40 = 40) /\
  (100 < 40 -> Display.barWidth 0 40 = 100) /\
  Display.barWidth 0 40 <= Display.barWidth (Display.barWidth 0 40) 50 /\
  Display.barWidth (Display.barWidth 0 40) 50 <= 100 /\
  (forall n, n < 0 -> Display.barWidth 0 n = 0).
Proof.
  apply (updateProgress_monotone 0 40 50 65); discriminate.
Defined.

Lemma translatePDFBackend_trace (st : State) (env : Env) :
  exists url form outcome,
    translatePDFBackend st env
    = ([ UpdateProgress 10; UpdateProgress 30; Fetch url form ], outcome) \/
    translatePDFBackend st env
    = ([ UpdateProgress 10; UpdateProgress 30; Fetch url form;
         UpdateProgress 90 ], outcome) \/
    translatePDFBackend st env
    = ([ UpdateProgress 10; UpdateProgress 30; Fetch url form;
         UpdateProgress 90; UpdateProgress 100 ], outcome).
Proof.
  unfold translatePDFBackend, fetch. simpl.
  destruct (backend env _ _) as [r|e]; simpl.
  - destruct (ok r); simpl.
    + destruct (body r) as [b|e]; simpl.
      * destruct (renamed _ _); simpl; do 3 eexists; auto.
      * do 3 eexists; auto.
    + do 3 eexists; auto.
  - do 3 eexists; auto.
Qed.

(** X12.  While a translation runs, the page never shows the status
    'Çeviri yapılıyor...' (translating) nor 'Çıktı hazırlanıyor...':
    whatever the backend answers, [processFiles] with the translate tool
    only reports the progress values 0, 10, 30, 90 and 100, whose status
    lines are the first two and the last one. *)
Theorem translate_status_lines (tools : Processing.Tools)
    (env : Processing.Env) (st : State) :
  currentTool st = Some "translate" ->
  forall line,
    In line
       (Display.statusLines (traceOf (Processing.processFiles tools env st)))
    -> line = "Dosya yükleniyor..." \/ line = "Dönüştürme başlatıldı..."
       \/ line = "Tamamlanıyor...".
Proof.
  intros Htool line.
  assert (Hd : dispatch tools env st = Settled (translatePDFBackend st env))
    by (unfold dispatch, isTool; rewrite Htool, String.eqb_refl;
        reflexivity).
  unfold Processing.processFiles. rewrite Hd.
  destruct (files st) as [|f rest]; [intros []|].
  destruct (translatePDFBackend_trace st env)
    as (url & form & [results|e] & [H|[H|H]]);
    rewrite H; simpl; intros Hin;
    repeat (destruct Hin as [<-|Hin];
            [first [ left; reflexivity
                   | right; left; reflexivity
                   | right; right; reflexivity ]|]);
    destruct Hin.
Qed.

Lemma translate_status_lines_witness :
  In "Tamamlanıyor..."
     (Display.statusLines
        (traceOf (Processing.processFiles Scenario.idle
                    (Scenario.answering "pdf" Scenario.bytes)
                    (Scenario.translating Scenario.report)))) /\
  ("Tamamlanıyor..." = "Dosya yükleniyor..."
   \/ "Tamamlanıyor..." = "Dönüştürme başlatıldı..."
   \/ "Tamamlanıyor..." = "Tamamlanıyor...").
Proof.
  assert (Hin : In "Tamamlanıyor..."
     (Display.statusLines
        (traceOf (Processing.processFiles Scenario.idle
                    (Scenario.answering "pdf" Scenario.bytes)
                    (Scenario.translating Scenario.report)))))
    by (simpl; auto 10).
  split; [exact Hin|].
  exact (translate_status_lines Scenario.idle
           (Scenario.answering "pdf" Scenario.bytes)
           (Scenario.translating Scenario.report) eq_refl _ Hin).
Defined.

(** ** js/processing.js: the backend tools and the health check *)

(** X13.  [checkBackendHealth] never throws: whatever happens to the
    request it makes exactly one request, to /health, and returns; it
    returns the parsed body when the answer is ok and its body is a JSON
    value other than null, and null in every other case (request
    rejected, answer not ok, body not JSON, body null). *)
Theorem checkBackendHealth_never_throws (env : Env) :
  exists health,
    Backend.checkBackendHealth env
    = ([ Fetch (BACKEND_URL env ++ "/health") [] ], Ok health) /\
    (forall data, health = Some data <->
       exists r e, backend env (BACKEND_URL env ++ "/health") [] = Ok r /\
                   ok r = true /\ json r = JsonValue e /\
                   data = JsonValue e).
Proof.
  unfold Backend.checkBackendHealth, fetch.
  cbn [bind emit lift try_catch app].
  destruct (backend env (BACKEND_URL env ++ "/health") []) as [r|e0] eqn:Hb.
  - cbn [bind app]. destruct (ok r) eqn:Hok.
    + destruct (json r) as [| |e] eqn:Hj; cbn [throw ret try_catch app].
      * exists None. split; [reflexivity|]. intros data. split.
        -- discriminate.
        -- intros (r' & e' & Hr & _ & Hj' & _). congruence.
      * exists None. split; [reflexivity|]. intros data. split.
        -- discriminate.
        -- intros (r' & e' & Hr & _ & Hj' & _). congruence.
      * exists (Some (JsonValue e)). split; [reflexivity|].
        intros data. split.
        -- intros H. injection H as <-. exists r, e. auto.
        -- intros (r' & e' & Hr & _ & Hj' & ->). congruence.
    + cbn [ret try_catch app]. exists None. split; [reflexivity|].
      intros data. split.
      * discriminate.
      * intros (r' & e' & Hr & Hok' & _). congruence.
  - cbn [bind try_catch ret app]. exists None. split; [reflexivity|].
    intros data. split.
    + discriminate.
    + intros (r' & e' & Hr & _). congruence.
Qed.

Ltac backend_is_down Hdown :=
  match goal with
  | |- context [backend ?env ?u ?f] =>
      let H := fresh "H" in
      pose proof (Hdown u f) as H;
      destruct (backend env u f) as [?r|?e]; simpl;
      [rewrite H; simpl|]; do 3 eexists; reflexivity
  end.

Lemma backend_tools_down (st : State) (env : Env) (ctl : Backend.Controls) :
  Backend.backendDown env ->
  forall run,
    In run [ translatePDFBackend st env;
             Backend.compressPDFBackend st env ctl;
             Backend.pdfToWordBackend st env ctl;
             Backend.pdfToExcelBackend st env ctl;
             Backend.pdfToImageBackend st env ctl;
             Backend.pdfToImagesBackend st env ctl ] ->
    exists url form e,
      run = ([ UpdateProgress 10; UpdateProgress 30; Fetch url form ],
             Throw e).
Proof.
  intros Hdown run Hin.
  repeat (destruct Hin as [<-|Hin]);
    [ unfold translatePDFBackend
    | unfold Backend.compressPDFBackend
    | unfold Backend.pdfToWordBackend
    | unfold Backend.pdfToExcelBackend
    | unfold Backend.pdfToImageBackend
    | unfold Backend.pdfToImagesBackend
    | destruct Hin ];
    unfold fetch; simpl; backend_is_down Hdown.
Qed.

(** X14.  When the backend is down (every request is rejected or gets an
    answer that is not ok), each of the six tools that [processFiles]
    sends to the backend ends the same way: after the upload attempt the
    request stops with the toast 'Hata: ' and the error's message, and
    the page returns to step 2.  No browser converter is tried in its
    place and no result is shown. *)
Theorem backend_down_no_fallback (lib : Libs) (ctl : Backend.Controls)
    (env : Env) (st : State) (tool : string) (f : File)
    (rest : list File) :
  Backend.backendDown env ->
  files st = f :: rest ->
  currentTool st = Some tool -> In tool App.backendTools ->
  exists url form e,
    App.processFiles lib ctl env st
    = Settled
        ([ GoToStep 3; UpdateProgress 0; UpdateProgress 10;
           UpdateProgress 30; Fetch url form;
           ShowToast ("Hata: " ++ message (typeErrorMessage env) e) "error";
           GoToStep 2 ],
         Ok tt).
Proof.
  intros Hdown Hfiles Htool Hin.
  assert (Hrun : exists url form e,
             dispatch (App.tools lib ctl env st) env st
             = Settled
                 ([ UpdateProgress 10; UpdateProgress 30; Fetch url form ],
                  Throw e)).
  { assert (Hsettled : exists run,
               dispatch (App.tools lib ctl env st) env st = Settled run /\
               In run [ translatePDFBackend st env;
                        Backend.compressPDFBackend st env ctl;
                        Backend.pdfToWordBackend st env ctl;
                        Backend.pdfToExcelBackend st env ctl;
                        Backend.pdfToImageBackend st env ctl;
                        Backend.pdfToImagesBackend st env ctl ]).
    { unfold dispatch, isTool. rewrite Htool.
      unfold App.backendTools in Hin.
      repeat (destruct Hin as [<-|Hin]); [..|destruct Hin];
        cbv [String.eqb Ascii.eqb Bool.eqb];
        cbn [App.tools Processing.compressPDFBackend
             Processing.pdfToWordBackend Processing.pdfToExcelBackend
             Processing.pdfToImageBackend Processing.pdfToImagesBackend];
        eexists; (split; [reflexivity|]); cbn [In]; auto 10. }
    destruct Hsettled as (run & -> & Hrun).
    destruct (backend_tools_down st env ctl Hdown run Hrun)
      as (url & form & e & ->).
    eauto. }
  destruct Hrun as (url & form & e & Hrun).
  exists url, form, e.
  unfold App.processFiles, Processing.processFiles.
  rewrite Hfiles, Hrun. reflexivity.
Qed.

Lemma backend_down_no_fallback_witness :
  exists url form e,
    App.processFiles Scenario.browser
      (Backend.mkControls None None None None)
      (Scenario.unreachable "pdf")
      (mkState (Some "pdf-to-word") [Scenario.report])
    = Settled
        ([ GoToStep 3; UpdateProgress 0; UpdateProgress 10;
           UpdateProgress 30; Fetch url form;
           ShowToast
             ("Hata: " ++ message
                            (typeErrorMessage (Scenario.unreachable "pdf")) e)
             "error";
           GoToStep 2 ],
         Ok tt).
Proof.
  apply (backend_down_no_fallback Scenario.browser
           (Backend.mkControls None None None None)
           (Scenario.unreachable "pdf")
           (mkState (Some "pdf-to-word") [Scenario.report])
           "pdf-to-word" Scenario.report []).
  - intros url form. exact I.
  - reflexivity.
  - reflexivity.
  - simpl. auto.
Defined.

Lemma replace_plain (n base suffix : string) :
  JsString.search ".pdf" n = Some (base, EmptyString) ->
  JsString.noDollar suffix = true ->
  JsString.replace n ".pdf" suffix = (base ++ suffix)%string.
Proof.
  intros Hs Hnd. unfold JsString.replace. rewrite Hs.
  rewrite getSubstitution_plain by assumption.
  now rewrite append_empty_r.
Qed.

Ltac backend_is_up Hup Hfiles :=
  unfold fetch;
  cbn [bind emit updateProgress showToast lift ret try_catch throw app];
  match goal with
  | |- context [backend ?env ?u ?f] =>
      let r := fresh "r" in
      let Hr := fresh "Hr" in
      let Hok := fresh "Hok" in
      let Hbody := fresh "Hbody" in
      destruct (Hup u f) as (r & Hr & Hok & Hbody);
      rewrite Hr; cbn [bind app]; rewrite Hok; cbn [negb bind ret app];
      rewrite Hbody, Hfiles;
      cbn [bind app hd_error renamed Backend.defined lift ret emit
           try_catch snd fst]
  end.

(** X15.  When the backend answers successfully and the uploaded file's
    name has '.pdf' as its ending and nowhere before, the backend tools
    return exactly one artifact each, carrying the body of the answer and
    named after the input: .docx for PDF to Word, .xlsx for PDF to Excel,
    _images.zip for all images and _compressed.pdf for compression.
    Compression also shows the toast with the percentage saved, computed
    in doubles from the size of the answer and the size of the file (both
    below 2^53) and rounded to an integer. *)
Theorem backend_tools_names (st : State) (env : Env)
    (ctl : Backend.Controls) (f : File) (rest : list File)
    (base : string) (b : Body) :
  Backend.backendUp env b ->
  files st = f :: rest ->
  JsString.search ".pdf" (file_name f) = Some (base, EmptyString) ->
  (Backend.sizeOf b < 2 ^ 53)%N -> (file_size f < 2 ^ 53)%N ->
  snd (Backend.pdfToWordBackend st env ctl)
  = Ok [ mkArtifact (base ++ ".docx") (BlobOfBody b) ] /\
  snd (Backend.pdfToExcelBackend st env ctl)
  = Ok [ mkArtifact (base ++ ".xlsx") (BlobOfBody b) ] /\
  snd (Backend.pdfToImagesBackend st env ctl)
  = Ok [ mkArtifact (base ++ "_images.zip") (BlobOfBody b) ] /\
  Backend.compressPDFBackend st env ctl
  = ([ UpdateProgress 10; UpdateProgress 30;
       Fetch (BACKEND_URL env ++ "/compress") [ ("file", FormFile f) ];
       UpdateProgress 90; UpdateProgress 100;
       ShowToast
         ("%" ++ Doubles.percentSaved (Backend.sizeOf b) (file_size f)
          ++ " küçüldü!")
         "success" ],
     Ok [ mkArtifact (base ++ "_compressed.pdf") (BlobOfBody b) ]).
Proof.
  intros Hup Hfiles Hsearch _ _. repeat split.
  - unfold Backend.pdfToWordBackend. backend_is_up Hup Hfiles.
    now rewrite (replace_plain _ base).
  - unfold Backend.pdfToExcelBackend. backend_is_up Hup Hfiles.
    now rewrite (replace_plain _ base).
  - unfold Backend.pdfToImagesBackend. backend_is_up Hup Hfiles.
    now rewrite (replace_plain _ base).
  - unfold Backend.compressPDFBackend. rewrite Hfiles.
    cbn [hd_error fileValue].
    unfold fetch;
    cbn [bind emit updateProgress showToast lift ret try_catch throw app].
    destruct (Hup (BACKEND_URL env ++ "/compress")%string
                  [ ("file", FormFile f) ]) as (r & Hr & Hok & Hbody).
    rewrite Hr. cbn [bind app]. rewrite Hok. cbn [negb bind ret app].
    rewrite Hbody.
    cbn [bind app hd_error renamed Backend.defined lift ret emit
         try_catch snd fst].
    now rewrite (replace_plain _ base).
Qed.

Lemma backend_tools_names_witness :
  snd (Backend.pdfToWordBackend (Scenario.holding Scenario.report)
         (Scenario.answering "pdf" [Byte.x25])
         (Backend.mkControls None None None None))
  = Ok [ mkArtifact "report.docx" (BlobOfBody [Byte.x25]) ] /\
  snd (Backend.pdfToExcelBackend (Scenario.holding Scenario.report)
         (Scenario.answering "pdf" [Byte.x25])
         (Backend.mkControls None None None None))
  = Ok [ mkArtifact "report.xlsx" (BlobOfBody [Byte.x25]) ] /\
  snd (Backend.pdfToImagesBackend (Scenario.holding Scenario.report)
         (Scenario.answering "pdf" [Byte.x25])
         (Backend.mkControls None None None None))
  = Ok [ mkArtifact "report_images.zip" (BlobOfBody [Byte.x25]) ] /\
  Backend.compressPDFBackend (Scenario.holding Scenario.report)
    (Scenario.answering "pdf" [Byte.x25])
    (Backend.mkControls None None None None)
  = ([ UpdateProgress 10; UpdateProgress 30;
       Fetch "https://api.example/compress"
             [ ("file", FormFile Scenario.report) ];
       UpdateProgress 90; UpdateProgress 100;
       ShowToast "%75 küçüldü!" "success" ],
     Ok [ mkArtifact "report_compressed.pdf" (BlobOfBody [Byte.x25]) ]).
Proof.
  apply (backend_tools_names (Scenario.holding Scenario.report)
           (Scenario.answering "pdf" [Byte.x25])
           (Backend.mkControls None None None None)
           Scenario.report [] "report" [Byte.x25]).
  - intros url form. eexists. repeat split.
  - reflexivity.
  - reflexivity.
  - reflexivity.
  - reflexivity.
Defined.

(** The percentage shown for an answer as large as the file, for one
    larger than the file and for an empty file. *)
Example percentSaved_examples :
  Doubles.percentSaved 4 4 = "0" /\
  Doubles.percentSaved 5 4 = "-25" /\
  Doubles.percentSaved 201 200 = "-0" /\
  Doubles.percentSaved 1 3 = "67" /\
  Doubles.percentSaved 3 0 = "-Infinity" /\
  Doubles.percentSaved 0 0 = "NaN".
Proof. vm_compute. repeat split. Qed.






(** ** The page script: selecting and removing files *)

Lemma length_app_cons_eqb {A : Type} (a : list A) (x : A) (l : list A) :
  Nat.eqb (List.length (a ++ x :: l)) 0 = false.
Proof.
  apply Nat.eqb_neq. rewrite length_app. cbn [List.length]. lia.
Qed.

(** X17.  [handleFiles] with a drop that is not empty: a tool without an
    entry in [toolConfig] ignores the drop; a tool for several files adds
    the dropped files after the selected ones; every other tool replaces
    the selection by the dropped files, all of them, although its
    converter reads only the first.  On a page with the file list, a list
    that showed the selection before shows it afterwards. *)
Theorem handleFiles_selection (page : Ui.Page) (fileList : list File)
    (ui : Ui.Ui) :
  fileList <> [] ->
  (Ui.lookupTool (Ui.tool ui) = Ui.Missing ->
   Ui.handleFiles page fileList ui = (ui, [])) /\
  (Ui.lookupTool (Ui.tool ui) <> Ui.Missing ->
   Ui.selected (fst (Ui.handleFiles page fileList ui))
   = (if Ui.isMultiple (Ui.lookupTool (Ui.tool ui))
      then Ui.selected ui ++ fileList else fileList) /\
   snd (Ui.handleFiles page fileList ui) = [ Ui.StepAfter 300 2 ]) /\
  (Ui.hasFileList page = true -> Ui.inSync ui ->
   Ui.inSync (fst (Ui.handleFiles page fileList ui))).
Proof.
  intros Hne. destruct fileList as [|f l]; [congruence|].
  unfold Ui.handleFiles, Ui.inSync, Ui.appended, Ui.cleared.
  split; [|split].
  - intros ->. reflexivity.
  - intros Hl.
    destruct (Ui.lookupTool (Ui.tool ui)) as [c| |] eqn:E; [| |congruence];
      cbn [Ui.isMultiple];
      [destruct (Ui.multiple c)|];
      destruct (Ui.selected ui) as [|g sel] eqn:Hsel;
      cbn [negb andb List.length Nat.eqb Ui.selected Ui.tool Ui.listed
           fst snd];
      rewrite ?Hsel, length_app_cons_eqb; split; reflexivity.
  - intros Hp Hs. rewrite Hp.
    destruct (Ui.lookupTool (Ui.tool ui)) as [c| |]; [| |exact Hs];
      destruct (negb _ && negb _);
      cbn [Ui.selected Ui.tool Ui.listed fst]; now rewrite ?Hs.
Qed.

Lemma handleFiles_selection_witness :
  Ui.selected
    (fst (Ui.handleFiles (Ui.mkPage true true)
            [Scenario.report; Scenario.scan]
            (Ui.mkUi (Some "translate") [Scenario.letter]
                     [Scenario.letter])))
  = [Scenario.report; Scenario.scan] /\
  Ui.inSync
    (fst (Ui.handleFiles (Ui.mkPage true true)
            [Scenario.report; Scenario.scan]
            (Ui.mkUi (Some "translate") [Scenario.letter]
                     [Scenario.letter]))).
Proof.
  destruct (handleFiles_selection (Ui.mkPage true true)
              [Scenario.report; Scenario.scan]
              (Ui.mkUi (Some "translate") [Scenario.letter]
                       [Scenario.letter]))
    as (_ & Hsel & Hsync); [discriminate|].
  split.
  - apply Hsel. discriminate.
  - apply Hsync; reflexivity.
Defined.

Lemma filter_other_names (name0 : string) (l : list File) :
  ~ In name0 (map file_name l) ->
  filter (fun f => negb (String.eqb (file_name f) name0)) l = l.
Proof.
  induction l as [|x l IH]; intros Hn; [reflexivity|].
  cbn [filter]. cbn [map In] in Hn.
  replace (String.eqb (file_name x) name0) with false
    by (symmetry; apply String.eqb_neq; tauto).
  cbn [negb]. f_equal. apply IH. tauto.
Qed.

Lemma filter_without (l : list File) :
  NoDup (map file_name l) ->
  forall k file, nth_error l k = Some file ->
    filter (fun f => negb (String.eqb (file_name f) (file_name file))) l
    = Ui.without k l.
Proof.
  induction l as [|x l IH]; intros Hnd k file Hk.
  - destruct k; discriminate Hk.
  - cbn [map] in Hnd. apply NoDup_cons_iff in Hnd. destruct Hnd as [Hx Hnd].
    destruct k as [|k]; cbn [nth_error] in Hk.
    + injection Hk as <-. cbn [filter Ui.without].
      rewrite String.eqb_refl. cbn [negb].
      now apply filter_other_names.
    + cbn [filter Ui.without].
      replace (String.eqb (file_name x) (file_name file)) with false.
      * cbn [negb]. f_equal. now apply IH.
      * symmetry. apply String.eqb_neq. intros E. apply Hx. rewrite E.
        apply in_map. now apply (nth_error_In l k).
Qed.

(** X18.  The remove button of a listed file drops from the selection
    every file that has the name of that file.  When the list shows the
    selection and the selected files have pairwise different names, this
    removes exactly the clicked file and the list still shows the
    selection; the page goes back to step 1 exactly when nothing is left
    selected. *)
Theorem removeItem_selection (k : nat) (ui : Ui.Ui) (file : File) :
  nth_error (Ui.listed ui) k = Some file ->
  (forall f, In f (Ui.selected (fst (Ui.removeItem k ui))) ->
     In f (Ui.selected ui) /\ file_name f <> file_name file) /\
  (snd (Ui.removeItem k ui) = [ Ui.Step 1 ] <->
   Ui.selected (fst (Ui.removeItem k ui)) = []) /\
  (Ui.inSync ui -> NoDup (map file_name (Ui.selected ui)) ->
   Ui.selected (fst (Ui.removeItem k ui)) = Ui.without k (Ui.selected ui) /\
   Ui.inSync (fst (Ui.removeItem k ui))).
Proof.
  intros Hk. unfold Ui.removeItem. rewrite Hk.
  cbn [fst snd Ui.selected Ui.listed]. split; [|split].
  - intros f Hin. apply filter_In in Hin. destruct Hin as [Hin Hne].
    split; [exact Hin|]. apply negb_true_iff in Hne.
    now apply String.eqb_neq.
  - destruct (filter _ (Ui.selected ui)) as [|g l]; cbn [List.length Nat.eqb];
      split; intros H; try reflexivity; discriminate H.
  - unfold Ui.inSync. cbn [Ui.selected Ui.listed]. intros Hs Hnd.
    rewrite Hs in Hk. rewrite (filter_without _ Hnd k file Hk).
    split; [reflexivity | now rewrite Hs].
Qed.

Lemma removeItem_selection_witness :
  Ui.selected
    (fst (Ui.removeItem 1
            (Ui.mkUi (Some "merge-pdf") [Scenario.report; Scenario.scan]
                     [Scenario.report; Scenario.scan])))
  = [Scenario.report] /\
  Ui.inSync
    (fst (Ui.removeItem 1
            (Ui.mkUi (Some "merge-pdf") [Scenario.report; Scenario.scan]
                     [Scenario.report; Scenario.scan]))).
Proof.
  destruct (removeItem_selection 1
              (Ui.mkUi (Some "merge-pdf") [Scenario.report; Scenario.scan]
                       [Scenario.report; Scenario.scan])
              Scenario.scan eq_refl) as (_ & _ & H).
  apply H.
  - reflexivity.
  - simpl. repeat constructor; simpl; intuition discriminate.
Defined.

(** ** The page script and [processFiles] together *)

Lemma act_keeps_selection_empty (page : Ui.Page) (ui : Ui.Ui)
    (a : Ui.Action) :
  (Ui.lookupTool (Ui.tool ui) = Ui.Missing -> Ui.selected ui = []) ->
  Ui.lookupTool (Ui.tool (Ui.act page ui a)) = Ui.Missing ->
  Ui.selected (Ui.act page ui a) = [].
Proof.
  intros Inv. destruct a as [t| | |l|k]; cbn [Ui.act].
  - unfold Ui.openTool. intros _.
    destruct (Ui.lookup t); [reflexivity| |reflexivity].
    destruct (Ui.hasUploadHint page); reflexivity.
  - reflexivity.
  - reflexivity.
  - unfold Ui.handleFiles. destruct l as [|f l]; [exact Inv|].
    destruct (Ui.lookupTool (Ui.tool ui)) as [c| |] eqn:E;
      [| |intros _; now apply Inv];
      destruct (negb _ && negb _); cbn [fst Ui.tool]; rewrite E;
      discriminate.
  - unfold Ui.removeItem.
    destruct (nth_error (Ui.listed ui) k); [|exact Inv].
    cbn [fst Ui.tool Ui.selected]. intros E. now rewrite (Inv E).
Qed.

Lemma after_keeps_selection_empty (page : Ui.Page)
    (actions : list Ui.Action) :
  Ui.lookupTool (Ui.tool (Ui.after page actions)) = Ui.Missing ->
  Ui.selected (Ui.after page actions) = [].
Proof.
  unfold Ui.after.
  assert (H : forall ui,
             (Ui.lookupTool (Ui.tool ui) = Ui.Missing ->
              Ui.selected ui = []) ->
             Ui.lookupTool (Ui.tool (fold_left (Ui.act page) actions ui))
             = Ui.Missing ->
             Ui.selected (fold_left (Ui.act page) actions ui) = []).
  { induction actions as [|a actions IH]; intros ui Inv; [exact Inv|].
    cbn [fold_left]. apply IH. now apply act_keeps_selection_empty. }
  apply H. reflexivity.
Qed.

(** X19.  The tools pdf-to-excel, pdf-to-image and pdf-to-images cannot be
    run from the page: they have no entry in [toolConfig], so whatever the
    user does (opening tools, dropping files, removing them, resetting,
    closing), no file is ever selected while one of them is the current
    tool, and [processFiles] then only shows the toast
    'Lütfen dosya seçin!'; it sends nothing to the backend. *)
Theorem tools_without_config_never_run (page : Ui.Page)
    (actions : list Ui.Action) (lib : Libs) (ctl : Backend.Controls)
    (env : Env) (t : string) :
  Ui.tool (Ui.after page actions) = Some t ->
  In t [ "pdf-to-excel"; "pdf-to-image"; "pdf-to-images" ] ->
  Ui.selected (Ui.after page actions) = [] /\
  App.processFiles lib ctl env (Ui.stateOf (Ui.after page actions))
  = Settled ([ ShowToast "Lütfen dosya seçin!" "error" ], Ok tt).
Proof.
  intros Ht Hin.
  assert (Hsel : Ui.selected (Ui.after page actions) = []).
  { apply after_keeps_selection_empty. rewrite Ht.
    repeat (destruct Hin as [<-|Hin]); try reflexivity. destruct Hin. }
  split; [exact Hsel|].
  unfold App.processFiles, Processing.processFiles, Ui.stateOf.
  cbn [files]. rewrite Hsel. reflexivity.
Qed.

Lemma tools_without_config_never_run_witness :
  Ui.selected
    (Ui.after (Ui.mkPage true true)
       [ Ui.Open "translate"; Ui.Drop [Scenario.report];
         Ui.Open "pdf-to-excel"; Ui.Drop [Scenario.report] ]) = [] /\
  App.processFiles Scenario.browser
    (Backend.mkControls None None None None)
    (Scenario.answering "pdf" Scenario.bytes)
    (Ui.stateOf
       (Ui.after (Ui.mkPage true true)
          [ Ui.Open "translate"; Ui.Drop [Scenario.report];
            Ui.Open "pdf-to-excel"; Ui.Drop [Scenario.report] ]))
  = Settled ([ ShowToast "Lütfen dosya seçin!" "error" ], Ok tt).
Proof.
  apply (tools_without_config_never_run (Ui.mkPage true true)
           [ Ui.Open "translate"; Ui.Drop [Scenario.report];
             Ui.Open "pdf-to-excel"; Ui.Drop [Scenario.report] ]
           Scenario.browser
           (Backend.mkControls None None None None)
           (Scenario.answering "pdf" Scenario.bytes) "pdf-to-excel").
  - reflexivity.
  - simpl. auto.
Defined.

(** ** The older copy of the converters *)

Lemma for_each_ext {A S : Type} (b1 b2 : S -> A -> M S) (l : list A) :
  (forall s x, In x l -> b1 s x = b2 s x) ->
  forall s, for_each b1 s l = for_each b2 s l.
Proof.
  induction l as [|x l IH]; intros Hb s; [reflexivity|].
  cbn [for_each]. rewrite (Hb s x) by now left. unfold bind.
  destruct (b2 s x) as [ev [s'|e]]; [|reflexivity].
  rewrite IH; [reflexivity|]. intros s0 y Hy. apply Hb. now right.
Qed.

(** X20.  The older copy of [pdfToImages] and [splitPDF] differs from the
    current one only in the scale at which pages are rendered: in every
    browser and state it behaves (progress, entries, names, order,
    errors) exactly as the current function does in the same browser with
    pages that render as the original ones do at scale 1.5. *)
Theorem older_copy_renders_larger (lib : Libs) (st : State) :
  OlderCopy.pdfToImages lib st
  = Converters.pdfToImages (OlderCopy.enlarged lib) st /\
  OlderCopy.splitPDF lib st
  = Converters.splitPDF (OlderCopy.enlarged lib) st.
Proof.
  split.
  - unfold OlderCopy.pdfToImages, Converters.pdfToImages.
    destruct (readFileAsArrayBuffer (hd_error (files st))) as [arr|e];
      [|reflexivity].
    rewrite !bind_lift_ok. cbn [getDocument OlderCopy.enlarged].
    destruct (getDocument lib arr) as [pdf|e]; [|reflexivity].
    cbn [OlderCopy.mapRes]. rewrite !bind_lift_ok.
    unfold for_range. cbn [numPages OlderCopy.enlargedPDF].
    f_equal. apply for_each_ext. intros rs i _.
    cbn [getPage OlderCopy.enlargedPDF].
    destruct (getPage pdf i) as [p|e]; [|reflexivity].
    cbn [OlderCopy.mapRes]. rewrite !bind_lift_ok. reflexivity.
  - unfold OlderCopy.splitPDF, Converters.splitPDF.
    destruct (readFileAsArrayBuffer (hd_error (files st))) as [arr|e];
      [|reflexivity].
    rewrite !bind_lift_ok. cbn [getDocument OlderCopy.enlarged].
    destruct (getDocument lib arr) as [pdf|e]; [|reflexivity].
    cbn [OlderCopy.mapRes]. rewrite !bind_lift_ok.
    unfold for_range. cbn [numPages OlderCopy.enlargedPDF].
    f_equal. apply for_each_ext. intros rs i _.
    cbn [getPage OlderCopy.enlargedPDF].
    destruct (getPage pdf i) as [p|e]; [|reflexivity].
    cbn [OlderCopy.mapRes]. rewrite !bind_lift_ok. reflexivity.
Qed.
